(** * aws-cdk-vpc: the fixed CIDR allocation and the stack construction

    A shallow embedding of [lib/networking-stack.ts].  The first part models
    the JavaScript primitives the address arithmetic relies on ([split],
    [parseInt], the number operators, [join]); the second part is the
    allocator [calculateFixedSubnetAllocation]; the third part is the
    constructor of [NetworkingStack], written in a state-and-exception monad
    over the list of constructs created in the stack, with the CDK library
    as a parameter that may throw at any of its calls.  Strings are
    sequences of code units below 256, which covers the text of addresses
    and of the configuration file. *)

From Stdlib Require Import ZArith String Ascii List Bool Lia DecimalString.
Import ListNotations.

Local Open Scope string_scope.
Local Open Scope Z_scope.

(** ** JavaScript primitives *)

Module JS.

(** A JavaScript number, restricted to the values this program can produce:
    every arithmetic result here is NaN, an infinity, or an integer-valued
    double.  [Fin z] stands for the double whose value is the integer [z];
    the two zeros are identified, since the program only passes its numbers
    on to [>>>] and [&], which do not tell them apart. *)
Inductive number : Type :=
| NaN : number
| Inf (negative : bool) : number
| Fin (z : Z) : number.

(** Rounding of a mathematical integer to the nearest double, ties to even
    (53 bits of significand, overflow to an infinity at 2^1024). *)
Definition fround (z : Z) : number :=
  let m := Z.abs z in
  if m <? 2 ^ 53 then Fin z
  else
    let e := Z.log2 m - 52 in
    let q := Z.shiftr m e in
    let r := m mod 2 ^ e in
    let h := 2 ^ (e - 1) in
    let q' := if (h <? r) || ((r =? h) && Z.odd q) then q + 1 else q in
    let m' := q' * 2 ^ e in
    if 2 ^ 1024 <=? m' then Inf (z <? 0)
    else Fin (if z <? 0 then - m' else m').

(** [x + y] *)
Definition add (x y : number) : number :=
  match x, y with
  | NaN, _ | _, NaN => NaN
  | Inf s, Inf t => if Bool.eqb s t then Inf s else NaN
  | Inf s, Fin _ | Fin _, Inf s => Inf s
  | Fin a, Fin b => fround (a + b)
  end.

(** [x * y] *)
Definition mul (x y : number) : number :=
  match x, y with
  | NaN, _ | _, NaN => NaN
  | Inf s, Inf t => Inf (xorb s t)
  | Inf s, Fin b | Fin b, Inf s =>
      if b =? 0 then NaN else Inf (xorb s (b <? 0))
  | Fin a, Fin b => fround (a * b)
  end.

(** The abstract operations ToUint32 and ToInt32. *)
Definition ToUint32 (x : number) : Z :=
  match x with
  | Fin z => z mod 2 ^ 32
  | _ => 0
  end.

Definition ToInt32 (x : number) : Z :=
  let u := ToUint32 x in
  if 2 ^ 31 <=? u then u - 2 ^ 32 else u.

(** [x >>> k] and [x & y] *)
Definition ushr (x k : number) : number :=
  Fin (Z.shiftr (ToUint32 x) (ToUint32 k mod 32)).

Definition band (x y : number) : number :=
  Fin (Z.land (ToInt32 x) (ToInt32 y)).

(** Decimal digits of a non-negative integer, most significant first. *)
Definition digitChar (d : Z) : ascii :=
  ascii_of_N (Z.to_N (48 + d)).

Fixpoint decimal (fuel : nat) (n : Z) (acc : string) : string :=
  let acc' := String (digitChar (n mod 10)) acc in
  match fuel with
  | O => acc'
  | S fuel' => if n <? 10 then acc' else decimal fuel' (n / 10) acc'
  end.

(** Number::toString, for the values that reach it.  The program only
    converts results of [&] to strings, that is 32-bit integers; the
    exponent notation of doubles from 1e21 on is not modelled. *)
Definition toString (x : number) : string :=
  match x with
  | NaN => "NaN"
  | Inf false => "Infinity"
  | Inf true => "-Infinity"
  | Fin z =>
      let m := Z.abs z in
      let s := decimal (Z.to_nat (Z.log2 m)) m "" in
      if z <? 0 then String "-" s else s
  end.

(** [a.join(sep)] on an array of numbers. *)
Fixpoint join (sep : string) (a : list number) : string :=
  match a with
  | [] => ""
  | [x] => toString x
  | x :: rest => toString x ++ sep ++ join sep rest
  end.

(** [s.split(sep)] for a one-character separator: never the empty array. *)
Fixpoint split (sep : ascii) (s : string) : list string :=
  match s with
  | EmptyString => [""]
  | String c s' =>
      if Ascii.eqb c sep then "" :: split sep s'
      else match split sep s' with
           | piece :: rest => String c piece :: rest
           | [] => [String c ""]
           end
  end.

(** White space skipped by [parseInt] (code units below 256: TAB, LF, VT,
    FF, CR, SP and NBSP). *)
Definition isWhiteSpace (c : ascii) : bool :=
  let n := Z.of_N (N_of_ascii c) in
  ((9 <=? n) && (n <=? 13)) || (n =? 32) || (n =? 160).

Fixpoint trimStart (s : string) : string :=
  match s with
  | String c s' => if isWhiteSpace c then trimStart s' else s
  | EmptyString => s
  end.

(** Value of a digit in the given radix (10 or 16). *)
Definition digitValue (radix : Z) (c : ascii) : option Z :=
  let n := Z.of_N (N_of_ascii c) in
  let v :=
    if (48 <=? n) && (n <=? 57) then Some (n - 48)
    else if (97 <=? n) && (n <=? 122) then Some (n - 87)
    else if (65 <=? n) && (n <=? 90) then Some (n - 55)
    else None in
  match v with
  | Some d => if d <? radix then Some d else None
  | None => None
  end.

(** Longest prefix of digits, accumulated to its mathematical value;
    [None] when the prefix is empty. *)
Fixpoint digitsValue (radix : Z) (s : string) (acc : option Z) : option Z :=
  match s with
  | EmptyString => acc
  | String c s' =>
      match digitValue radix c with
      | Some d =>
          digitsValue radix s'
            (Some (match acc with Some a => a * radix + d | None => d end))
      | None => acc
      end
  end.

(** [parseInt(s)] with no radix argument: leading white space, an optional
    sign, an optional 0x or 0X prefix, then the longest run of digits;
    NaN when that run is empty.  (For more than 20 decimal digits an engine
    may approximate; the exact value is rounded here.) *)
Definition parseInt (s : string) : number :=
  let s1 := trimStart s in
  let '(negative, s2) :=
    match s1 with
    | String "-" r => (true, r)
    | String "+" r => (false, r)
    | _ => (false, s1)
    end in
  let '(radix, s3) :=
    match s2 with
    | String "0" (String "x" r) => (16, r)
    | String "0" (String "X" r) => (16, r)
    | _ => (10, s2)
    end in
  match digitsValue radix s3 None with
  | None => NaN
  | Some v => fround (if negative then - v else v)
  end.

(** A template-literal hole filled with a possibly undefined string. *)
Definition interpolate (v : option string) : string :=
  match v with
  | Some s => s
  | None => "undefined"
  end.

End JS.

(** ** The address arithmetic and the allocator *)

(** [throw new Error(message)] *)
Inductive Error : Type :=
| MkError (message : string).

Inductive result (A : Type) : Type :=
| Ok (a : A)
| Throw (e : Error).
Arguments Ok {A} a.
Arguments Throw {A} e.

Record Allocation : Type := mkAllocation {
  web : list string;
  app : list string;
  data : list string
}.

Definition ipToNumber (ip : string) : JS.number :=
  fold_left (fun acc octet => JS.add (JS.mul acc (JS.Fin 256)) (JS.parseInt octet))
            (JS.split "." ip) (JS.Fin 0).

Definition numberToIp (num : JS.number) : string :=
  JS.join "."
    [ JS.band (JS.ushr num (JS.Fin 24)) (JS.Fin 255);
      JS.band (JS.ushr num (JS.Fin 16)) (JS.Fin 255);
      JS.band (JS.ushr num (JS.Fin 8)) (JS.Fin 255);
      JS.band num (JS.Fin 255) ].

Definition subnetSize : JS.number := JS.Fin 4096.

(** One loop [for (i = lo; i < hi; i++)] of the allocator, as the list of
    the values pushed. *)
Definition subnetBlocks (vpcBaseIp : JS.number) (indices : list Z) : list string :=
  map (fun i =>
         let subnetBaseIp := JS.add vpcBaseIp (JS.mul (JS.Fin i) subnetSize) in
         let subnetNetwork := numberToIp subnetBaseIp in
         subnetNetwork ++ "/20")
      indices.

Definition calculateFixedSubnetAllocation (vpcCidr : string) : result Allocation :=
  let vpcNetwork := hd "" (JS.split "/" vpcCidr) in
  let vpcPrefix := nth_error (JS.split "/" vpcCidr) 1 in
  if negb (match vpcPrefix with Some p => String.eqb p "16" | None => false end)
  then Throw (MkError ("VPC CIDR must be /16, got /" ++ JS.interpolate vpcPrefix))
  else
    let vpcBaseIp := ipToNumber vpcNetwork in
    Ok {| web := subnetBlocks vpcBaseIp [0; 1];
          app := subnetBlocks vpcBaseIp [2; 3];
          data := subnetBlocks vpcBaseIp [4; 5] |}.

(** ** The construct tree *)

Record Tag : Type := mkTag { key : string; value : string }.

(** A CloudFormation reference to the construct with the given id
    ([x.ref], [vpc.vpcId], [instance.instanceId]). *)
Inductive Ref : Type :=
| RefOf (id : string).

Inductive RouteTarget : Type :=
| gatewayId (r : Ref)
| instanceId (r : Ref).

(** The template literal
    [arn:aws:ec2:${this.region}:${this.account}:subnet/${subnet.ref}],
    kept as its three holes. *)
Record SubnetArn : Type := mkSubnetArn {
  arnRegion : string;
  arnAccount : string;
  arnSubnet : Ref
}.

Inductive Peer : Type :=
| ipv4_vpcCidrBlock (vpc : string).

Inductive Port : Type :=
| allTraffic.

Inductive InstanceClass : Type := T4G.
Inductive InstanceSize : Type := NANO.
Inductive AmazonLinuxCpuType : Type := ARM_64.

Inductive MachineImage : Type :=
| latestAmazonLinux2023 (cpuType : AmazonLinuxCpuType).

Inductive Principal : Type :=
| ServicePrincipal (service : string).

Inductive ManagedPolicy : Type :=
| fromAwsManagedPolicyName (name : string).

(** An entry of [subnetConfiguration]; the constructor passes none. *)
Inductive SubnetConfiguration : Type :=
| mkSubnetConfiguration (name : string).

(** The constructs the constructor creates, each with the properties it is
    given.  Constructs passed as objects are named by their id. *)
Inductive Construct : Type :=
| Vpc (id ipAddresses : string) (maxAzs : Z) (vpcName : string)
      (subnetConfiguration : list SubnetConfiguration)
| CfnInternetGateway (id : string) (tags : list Tag)
| CfnVPCGatewayAttachment (id : string) (vpcId internetGatewayId : Ref)
| CfnRouteTable (id : string) (vpcId : Ref) (tags : list Tag)
| CfnSubnet (id : string) (vpcId : Ref) (cidrBlock : option string)
            (availabilityZone : string) (mapPublicIpOnLaunch : option bool)
            (tags : list Tag)
| CfnSubnetRouteTableAssociation (id : string) (subnetId routeTableId : Ref)
| ImportedSubnet (id : string) (subnetId : Ref)
                 (availabilityZone : option string) (routeTableId : Ref)
| CfnRoute (id : string) (routeTableId : Ref) (destinationCidrBlock : string)
           (target : RouteTarget)
| SecurityGroup (id vpc description : string) (allowAllOutbound : bool)
                (securityGroupName : string)
| Role (id : string) (assumedBy : Principal)
       (managedPolicies : list ManagedPolicy) (roleName : string)
| Instance (id vpc : string) (instanceType : InstanceClass * InstanceSize)
           (machineImage : MachineImage) (securityGroup : string)
           (subnets : list (option string)) (role instanceName : string)
           (sourceDestCheck : bool)
| CfnVPCEndpoint (id : string) (vpcId : Ref)
                 (serviceName vpcEndpointType : string)
                 (routeTableIds : list Ref)
| CfnResourceShare (id name : string) (resourceArns : list SubnetArn)
                   (principals : list string)
                   (allowExternalPrincipals : bool) (tags : list Tag).

(** What the constructor does to the tree: it creates a construct, or it
    changes one that exists. *)
Inductive Action : Type :=
| New (c : Construct)
| SetEnableDnsHostnames (vpc : string) (enabled : bool)
| AddTag (target key value : string)
| AddIngressRule (securityGroup : string) (peer : Peer) (port : Port)
                 (description : string)
| AddUserData (instance : string) (commands : list string).

(** The children of the stack: the actions completed so far, in the order
    of the calls. *)
Definition Graph : Type := list Action.

(** The CDK library is not part of the repository, and its calls can
    throw (a CIDR the library cannot read, an instance without a subnet, a
    stack name it does not accept).  The model takes the library as it
    finds it: [perform lib g a] is the exception the library raises when
    asked for the action [a] on the tree [g], if it raises one.  The
    evaluation of the arguments of a call ([ec2.IpAddresses.cidr],
    [ec2.Peer.ipv4], [ec2.InstanceType.of] and the like) counts as part of
    the call.  [newStack] is [super(scope, id, props)] of the stack, given
    the id and the region, and [tagApp] is [cdk.Tags.of(app).add]. *)
Record Library : Type := mkLibrary {
  perform : Graph -> Action -> option Error;
  newStack : string -> string -> option Error;
  tagApp : string -> string -> option Error
}.

(** The library that raises nothing. *)
Definition recorder : Library :=
  mkLibrary (fun _ _ => None) (fun _ _ => None) (fun _ _ => None).

(** ** State and exceptions *)

Definition M (A : Type) : Type := Graph -> result A * Graph.

Definition ret {A} (a : A) : M A := fun g => (Ok a, g).

Definition bind {A B} (m : M A) (k : A -> M B) : M B :=
  fun g =>
    match m g with
    | (Ok a, g') => k a g'
    | (Throw e, g') => (Throw e, g')
    end.

Definition throw {A} (e : Error) : M A := fun g => (Throw e, g).

(** A library call: it throws what the library raises, or else the action
    is done. *)
Definition emit (lib : Library) (a : Action) : M unit :=
  fun g =>
    match perform lib g a with
    | Some e => (Throw e, g)
    | None => (Ok tt, (g ++ [a])%list)
    end.

Definition create (lib : Library) (c : Construct) : M unit := emit lib (New c).

Definition liftResult {A} (r : result A) : M A := fun g => (r, g).

Notation "x <- m ;; k" := (bind m (fun x => k))
  (at level 61, m at next level, right associativity).
Notation "m ;;; k" := (bind m (fun _ => k))
  (at level 61, right associativity).

(** [a.forEach((x, index) => ...)] and [a.map((x, index) => ...)], with the
    values the callback pushes or returns collected in order. *)
Fixpoint mapIndexed {A B} (f : A -> nat -> M B) (a : list A) (index : nat)
  : M (list B) :=
  match a with
  | [] => ret []
  | x :: rest =>
      y <- f x index ;;
      ys <- mapIndexed f rest (S index) ;;
      ret (y :: ys)
  end.

(** ** The stack *)

Record ConfigProps : Type := mkConfigProps {
  project : string;
  cidr : string;
  cfgRegion : string;
  env : string;
  awsApplicationTag : option string;
  accounts : option (list string)
}.

Record Props : Type := mkProps {
  config : ConfigProps;
  namePrefix : string
}.

(** What the stack reads from its environment: the zones of
    [cdk.Stack.of(this).availabilityZones], [this.region], [this.account]. *)
Record StackEnv : Type := mkStackEnv {
  availabilityZones : list string;
  region : string;
  account : string
}.

Record NetworkingStack : Type := mkNetworkingStack {
  vpc : string;
  webSubnets : list string;
  appSubnets : list string;
  dataSubnets : list string;
  natInstance : string;
  subnetAllocation : Allocation
}.

Definition indexString (index : nat) : string :=
  JS.toString (JS.Fin (Z.of_nat index)).

Definition nameTag (v : string) : list Tag := [mkTag "Name" v].

(** The body shared by the three [azs.forEach] loops: one subnet and its
    association with the route table of the tier. *)
Definition createSubnet (lib : Library) (p : Props) (tierId tierName : string)
    (blocks : list string) (mapPublic : option bool) (routeTable : string)
    (az : string) (index : nat) : M string :=
  let azSuffix := JS.toString (JS.add (JS.Fin (Z.of_nat index)) (JS.Fin 1)) in
  let subnet := tierId ++ "Subnet" ++ indexString index in
  create lib (CfnSubnet subnet (RefOf "VPC") (nth_error blocks index) az mapPublic
            (nameTag (namePrefix p ++ "-" ++ tierName ++ "-" ++ azSuffix))) ;;;
  create lib (CfnSubnetRouteTableAssociation
            (tierId ++ "SubnetRTA" ++ indexString index)
            (RefOf subnet) (RefOf routeTable)) ;;;
  ret subnet.

Definition importSubnet (lib : Library) (tierId : string) (azs : list string)
    (routeTable : string) (subnet : string) (index : nat) : M string :=
  let id := tierId ++ "SubnetRef" ++ indexString index in
  create lib (ImportedSubnet id (RefOf subnet) (nth_error azs index)
            (RefOf routeTable)) ;;;
  ret id.

Definition natUserData : list string :=
  [ "sudo dnf update -y";
    "sudo dnf install -y firewalld";
    "sudo sysctl -w net.ipv4.ip_forward=1";
    "echo 'net.ipv4.ip_forward = 1' | sudo tee -a /etc/sysctl.conf";
    "sudo systemctl start firewalld";
    "sudo systemctl enable firewalld";
    "sudo firewall-cmd --add-masquerade --permanent";
    "sudo firewall-cmd --permanent --zone=public --add-interface=ens5";
    "sudo firewall-cmd --permanent --direct --add-rule ipv4 filter FORWARD 0 -j ACCEPT";
    "sudo firewall-cmd --reload" ].

Definition subnetArns (e : StackEnv) (subnetsArray : list string)
  : list SubnetArn :=
  map (fun subnet => mkSubnetArn (region e) (account e) (RefOf subnet))
      subnetsArray.

(** The constructor of [NetworkingStack], after [super(scope, id, props)]. *)
Definition constructor (lib : Library) (e : StackEnv) (p : Props)
  : M NetworkingStack :=
  let vpcPrefix := nth_error (JS.split "/" (cidr (config p))) 1 in
  (if negb (match vpcPrefix with Some s => String.eqb s "16" | None => false end)
   then throw (MkError ("VPC CIDR must be /16, got /" ++ JS.interpolate vpcPrefix
                        ++ ". This CDK is designed for /16 VPCs with /20 subnets."))
   else ret tt) ;;;
  allocation <- liftResult (calculateFixedSubnetAllocation (cidr (config p))) ;;
  create lib (Vpc "VPC" (cidr (config p)) 2 (namePrefix p ++ "-vpc") []) ;;;
  emit lib (SetEnableDnsHostnames "VPC" true) ;;;
  create lib (CfnInternetGateway "InternetGateway" (nameTag (namePrefix p ++ "-igw"))) ;;;
  create lib (CfnVPCGatewayAttachment "IGWAttachment" (RefOf "VPC")
            (RefOf "InternetGateway")) ;;;
  create lib (CfnRouteTable "WebRouteTable" (RefOf "VPC")
            (nameTag (namePrefix p ++ "-web-rtb"))) ;;;
  create lib (CfnRouteTable "AppRouteTable" (RefOf "VPC")
            (nameTag (namePrefix p ++ "-app-rtb"))) ;;;
  create lib (CfnRouteTable "DataRouteTable" (RefOf "VPC")
            (nameTag (namePrefix p ++ "-data-rtb"))) ;;;
  let azs := firstn 2 (availabilityZones e) in
  webSubnetsArray <-
    mapIndexed (createSubnet lib p "Web" "web" (web allocation) (Some true)
                  "WebRouteTable") azs 0 ;;
  appSubnetsArray <-
    mapIndexed (createSubnet lib p "App" "app" (app allocation) None
                  "AppRouteTable") azs 0 ;;
  dataSubnetsArray <-
    mapIndexed (createSubnet lib p "Data" "data" (data allocation) None
                  "DataRouteTable") azs 0 ;;
  webSubnets <- mapIndexed (importSubnet lib "Web" azs "WebRouteTable")
                  webSubnetsArray 0 ;;
  appSubnets <- mapIndexed (importSubnet lib "App" azs "AppRouteTable")
                  appSubnetsArray 0 ;;
  dataSubnets <- mapIndexed (importSubnet lib "Data" azs "DataRouteTable")
                   dataSubnetsArray 0 ;;
  create lib (CfnRoute "WebInternetRoute" (RefOf "WebRouteTable") "0.0.0.0/0"
            (gatewayId (RefOf "InternetGateway"))) ;;;
  create lib (SecurityGroup "NatSG" "VPC" "Security group for NAT instance" true
            (namePrefix p ++ "-nat-sg")) ;;;
  emit lib (AddTag "NatSG" "Name" (namePrefix p ++ "-nat-sg")) ;;;
  emit lib (AddIngressRule "NatSG" (ipv4_vpcCidrBlock "VPC") allTraffic
          "Allow all traffic from VPC") ;;;
  create lib (Role "NatInstanceRole" (ServicePrincipal "ec2.amazonaws.com")
            [fromAwsManagedPolicyName "AmazonSSMManagedInstanceCore"]
            (namePrefix p ++ "-nat-instance-role")) ;;;
  create lib (Instance "NatInstance" "VPC" (T4G, NANO)
            (latestAmazonLinux2023 ARM_64)
            "NatSG" [nth_error webSubnets 0] "NatInstanceRole"
            (namePrefix p ++ "-nat-instance") false) ;;;
  emit lib (AddUserData "NatInstance" natUserData) ;;;
  create lib (CfnRoute "AppNatRoute" (RefOf "AppRouteTable") "0.0.0.0/0"
            (instanceId (RefOf "NatInstance"))) ;;;
  create lib (CfnVPCEndpoint "S3Endpoint" (RefOf "VPC")
            ("com.amazonaws." ++ region e ++ ".s3") "Gateway"
            [RefOf "AppRouteTable"]) ;;;
  emit lib (AddTag "S3Endpoint" "Name" (namePrefix p ++ "-vpce-s3")) ;;;
  create lib (CfnVPCEndpoint "DynamoDbEndpoint" (RefOf "VPC")
            ("com.amazonaws." ++ region e ++ ".dynamodb") "Gateway"
            [RefOf "AppRouteTable"]) ;;;
  emit lib (AddTag "DynamoDbEndpoint" "Name" (namePrefix p ++ "-vpce-dynamodb")) ;;;
  (if match accounts (config p) with
      | Some principals => 0 <? Z.of_nat (length principals)
      | None => false
      end
   then
     create lib (CfnResourceShare "SubnetResourceShare"
               (namePrefix p ++ "-subnet-share")
               (subnetArns e webSubnetsArray ++ subnetArns e appSubnetsArray
                ++ subnetArns e dataSubnetsArray)%list
               (match accounts (config p) with
                | Some principals => principals
                | None => []
                end)
               false
               [ mkTag "Name" (namePrefix p ++ "-subnet-share");
                 mkTag "Purpose" "Cross-account subnet sharing" ])
   else ret tt) ;;;
  ret {| vpc := "VPC";
         webSubnets := webSubnets;
         appSubnets := appSubnets;
         dataSubnets := dataSubnets;
         natInstance := "NatInstance";
         subnetAllocation := allocation |}.

(** ** Vocabulary of the specification *)

(** An octet and the canonical dotted quad of four octets. *)
Definition octet (n : Z) : Prop := 0 <= n <= 255.

Definition showOctet (n : Z) : string :=
  NilEmpty.string_of_uint (N.to_uint (Z.to_N n)).

Definition dottedQuad (a b c d : Z) : string :=
  showOctet a ++ "." ++ showOctet b ++ "." ++ showOctet c ++ "." ++ showOctet d.

Definition quadValue (a b c d : Z) : Z :=
  a * 2 ^ 24 + b * 2 ^ 16 + c * 2 ^ 8 + d.

(** The dotted quad of a 32-bit address. *)
Definition addrString (n : Z) : string :=
  dottedQuad (n / 2 ^ 24 mod 256) (n / 2 ^ 16 mod 256) (n / 2 ^ 8 mod 256)
             (n mod 256).

Record AddressBlock : Type := mkBlock { network : Z; prefixLen : Z }.

Definition blockSize (b : AddressBlock) : Z := 2 ^ (32 - prefixLen b).

Definition validBlock (b : AddressBlock) : Prop :=
  0 <= prefixLen b <= 32 /\ 0 <= network b
  /\ network b + blockSize b <= 2 ^ 32
  /\ network b mod blockSize b = 0.

Definition inBlock (x : Z) (b : AddressBlock) : Prop :=
  network b <= x < network b + blockSize b.

Definition cidrString (b : AddressBlock) : string :=
  addrString (network b) ++ "/" ++ showOctet (prefixLen b).

(** The k-th /20 block counted from the base of the top-level block. *)
Definition subBlock (top : AddressBlock) (k : Z) : AddressBlock :=
  mkBlock (network top + k * 4096) 20.

(** The text before the first separator, and the text after it. *)
Fixpoint upTo (sep : ascii) (s : string) : string :=
  match s with
  | EmptyString => ""
  | String c s' => if Ascii.eqb c sep then "" else String c (upTo sep s')
  end.

Fixpoint afterFirst (sep : ascii) (s : string) : option string :=
  match s with
  | EmptyString => None
  | String c s' => if Ascii.eqb c sep then Some s' else afterFirst sep s'
  end.

(** The prefix field of a CIDR string: what stands between the first slash
    and the next one, or the end. *)
Definition prefixField (cidr : string) : option string :=
  option_map (upTo "/") (afterFirst "/" cidr).

Fixpoint noChar (c : ascii) (s : string) : bool :=
  match s with
  | EmptyString => true
  | String c' s' => negb (Ascii.eqb c' c) && noChar c s'
  end.

(** ** Vocabulary of the plan *)

(** [new NetworkingStack(app, id, props)]: the constructor run on a stack
    that has no children yet. *)
Definition newNetworkingStack (lib : Library) (e : StackEnv) (p : Props)
  : result NetworkingStack * Graph :=
  constructor lib e p [].

Inductive Tier : Type := Web | App | Data.

Definition tierId (t : Tier) : string :=
  match t with Web => "Web" | App => "App" | Data => "Data" end.

Definition routeTableOf (t : Tier) : string := tierId t ++ "RouteTable".

Definition subnetOf (t : Tier) (index : nat) : string :=
  tierId t ++ "Subnet" ++ indexString index.

Definition blocksOf (a : Allocation) (t : Tier) : list string :=
  match t with Web => web a | App => app a | Data => data a end.

Definition constructs (g : Graph) : list Construct :=
  flat_map (fun a => match a with New c => [c] | _ => [] end) g.

(** The targets of the default routes of a route table. *)
Definition defaultRouteTargets (g : Graph) (routeTable : string)
  : list RouteTarget :=
  flat_map (fun c =>
              match c with
              | CfnRoute _ (RefOf rt) destination target =>
                  if String.eqb rt routeTable
                     && String.eqb destination "0.0.0.0/0"
                  then [target] else []
              | _ => []
              end)
           (constructs g).

Definition internetGateways (g : Graph) : list string :=
  flat_map (fun c => match c with CfnInternetGateway id _ => [id] | _ => [] end)
           (constructs g).

Definition instances (g : Graph) : list Construct :=
  filter (fun c => match c with Instance _ _ _ _ _ _ _ _ _ => true | _ => false end)
         (constructs g).

Definition isSubnet (c : Construct) : bool :=
  match c with CfnSubnet _ _ _ _ _ _ => true | _ => false end.

Definition constructId (c : Construct) : string :=
  match c with
  | Vpc id _ _ _ _ | CfnInternetGateway id _ | CfnVPCGatewayAttachment id _ _
  | CfnRouteTable id _ _ | CfnSubnet id _ _ _ _ _
  | CfnSubnetRouteTableAssociation id _ _ | ImportedSubnet id _ _ _
  | CfnRoute id _ _ _ | SecurityGroup id _ _ _ _ | Role id _ _ _
  | Instance id _ _ _ _ _ _ _ _ | CfnVPCEndpoint id _ _ _ _
  | CfnResourceShare id _ _ _ _ _ => id
  end.

Definition subnets (g : Graph) : list Construct :=
  filter isSubnet (constructs g).

Definition subnetsNamed (g : Graph) (id : string) : list Construct :=
  filter (fun c => String.eqb (constructId c) id) (subnets g).

Definition subnetCidrBlock (c : Construct) : option string :=
  match c with CfnSubnet _ _ block _ _ _ => block | _ => None end.

Definition subnetZone (c : Construct) : option string :=
  match c with CfnSubnet _ _ _ az _ _ => Some az | _ => None end.

Definition isPublic (c : Construct) : bool :=
  match c with CfnSubnet _ _ _ _ (Some true) _ => true | _ => false end.

(** The route tables each subnet is associated with: pairs of the subnet
    and the route table an association names. *)
Definition associations (g : Graph) : list (Ref * Ref) :=
  flat_map (fun c =>
              match c with
              | CfnSubnetRouteTableAssociation _ subnet table => [(subnet, table)]
              | _ => []
              end)
           (constructs g).

Definition associationsOf (g : Graph) (subnet : string) : list Ref :=
  flat_map (fun '(RefOf s, table) => if String.eqb s subnet then [table] else [])
           (associations g).

Definition routeTables (g : Graph) : list string :=
  flat_map (fun c => match c with CfnRouteTable id _ _ => [id] | _ => [] end)
           (constructs g).

Definition resourceShares (g : Graph) : list Construct :=
  filter (fun c => match c with CfnResourceShare _ _ _ _ _ _ => true | _ => false end)
         (constructs g).

Definition importedSubnets (g : Graph) : list Construct :=
  filter (fun c => match c with ImportedSubnet _ _ _ _ => true | _ => false end)
         (constructs g).

Definition vpcs (g : Graph) : list Construct :=
  filter (fun c => match c with Vpc _ _ _ _ _ => true | _ => false end)
         (constructs g).

Definition ingressRules (g : Graph) (securityGroup : string)
  : list (Peer * Port) :=
  flat_map (fun a =>
              match a with
              | AddIngressRule sg peer port _ =>
                  if String.eqb sg securityGroup then [(peer, port)] else []
              | _ => []
              end)
           g.

Definition withCidr (p : Props) (c : string) : Props :=
  mkProps (mkConfigProps (project (config p)) c (cfgRegion (config p))
             (env (config p)) (awsApplicationTag (config p))
             (accounts (config p)))
          (namePrefix p).

Definition prefixError (vpcPrefix : option string) : Error :=
  MkError ("VPC CIDR must be /16, got /" ++ JS.interpolate vpcPrefix
           ++ ". This CDK is designed for /16 VPCs with /20 subnets.").

Definition shareArns (c : Construct) : list SubnetArn :=
  match c with CfnResourceShare _ _ arns _ _ _ => arns | _ => [] end.

Definition sharePrincipals (c : Construct) : list string :=
  match c with CfnResourceShare _ _ _ principals _ _ => principals | _ => [] end.

Definition shareAllowsExternal (c : Construct) : bool :=
  match c with CfnResourceShare _ _ _ _ allow _ => allow | _ => false end.

Definition instanceSubnets (c : Construct) : list (option string) :=
  match c with Instance _ _ _ _ _ subnets _ _ _ => subnets | _ => [] end.

Definition instanceSecurityGroup (c : Construct) : option string :=
  match c with Instance _ _ _ _ sg _ _ _ _ => Some sg | _ => None end.

Definition sourceDestCheck (c : Construct) : option bool :=
  match c with Instance _ _ _ _ _ _ _ _ check => Some check | _ => None end.

Definition importedSubnetId (c : Construct) : option Ref :=
  match c with ImportedSubnet _ subnet _ _ => Some subnet | _ => None end.

Definition vpcIpAddresses (c : Construct) : option string :=
  match c with Vpc _ block _ _ _ => Some block | _ => None end.

Definition demoProps : Props :=
  mkProps (mkConfigProps "network" "10.10.0.0/16" "us-east-1" "prod" None
             (Some ["123456789012"]))
          "prod-network".

Definition demoEnv : StackEnv :=
  mkStackEnv ["us-east-1a"; "us-east-1b"; "us-east-1c"] "us-east-1"
             "111111111111".

Definition otherProps : Props :=
  mkProps (mkConfigProps "billing" "10.10.0.0/16" "eu-west-1" "test" None None)
          "test-billing".

Definition otherEnv : StackEnv :=
  mkStackEnv ["eu-west-1a"; "eu-west-1b"] "eu-west-1" "222222222222".

(** ** Vocabulary of the further properties *)

(** The block string the allocator writes for index [k] when the address
    before the slash has the value [v]: no masking of [v], and the sum
    reduced to 32 bits. *)
Definition allocatedBlock (v k : Z) : string :=
  addrString ((v + 4096 * k) mod 2 ^ 32) ++ "/20".

Definition allBlocks (a : Allocation) : list string :=
  (web a ++ app a ++ data a)%list.

(** The ids an action refers to: the constructs it is handed as objects,
    references or targets. *)
Definition refId (r : Ref) : string :=
  match r with RefOf id => id end.

Definition references (a : Action) : list string :=
  match a with
  | New c =>
      match c with
      | Vpc _ _ _ _ _ | CfnInternetGateway _ _ | Role _ _ _ _ => []
      | CfnVPCGatewayAttachment _ v igw => [refId v; refId igw]
      | CfnRouteTable _ v _ => [refId v]
      | CfnSubnet _ v _ _ _ _ => [refId v]
      | CfnSubnetRouteTableAssociation _ subnet table =>
          [refId subnet; refId table]
      | ImportedSubnet _ subnet _ table => [refId subnet; refId table]
      | CfnRoute _ table _ (gatewayId r) | CfnRoute _ table _ (instanceId r) =>
          [refId table; refId r]
      | SecurityGroup _ v _ _ _ => [v]
      | Instance _ v _ _ sg subnets role _ _ =>
          (v :: sg :: role
             :: flat_map (fun s => match s with Some id => [id] | None => [] end)
                         subnets)
      | CfnVPCEndpoint _ v _ _ tables => refId v :: map refId tables
      | CfnResourceShare _ _ arns _ _ _ =>
          map (fun arn => refId (arnSubnet arn)) arns
      end
  | SetEnableDnsHostnames v _ => [v]
  | AddTag target _ _ => [target]
  | AddIngressRule sg (ipv4_vpcCidrBlock v) _ _ => [sg; v]
  | AddUserData instance _ => [instance]
  end.

Definition memString (x : string) (l : list string) : bool :=
  existsb (String.eqb x) l.

Fixpoint distinctStrings (l : list string) : bool :=
  match l with
  | [] => true
  | x :: rest => negb (memString x rest) && distinctStrings rest
  end.

(** Every reference of every action names a construct created by an
    earlier action, [seen] being the ids that exist beforehand. *)
Fixpoint orderedFrom (seen : list string) (g : Graph) : bool :=
  match g with
  | [] => true
  | a :: rest =>
      forallb (fun r => memString r seen) (references a)
      && orderedFrom (map constructId (constructs [a]) ++ seen)%list rest
  end.

Definition endpoints (g : Graph) : list Construct :=
  filter (fun c => match c with CfnVPCEndpoint _ _ _ _ _ => true | _ => false end)
         (constructs g).

Definition endpointService (c : Construct) : option string :=
  match c with CfnVPCEndpoint _ _ service _ _ => Some service | _ => None end.

Definition endpointType (c : Construct) : option string :=
  match c with CfnVPCEndpoint _ _ _ type _ => Some type | _ => None end.

Definition endpointRouteTables (c : Construct) : list Ref :=
  match c with CfnVPCEndpoint _ _ _ _ tables => tables | _ => [] end.

(** The VPC each construct is put in, where it names one. *)
Definition vpcRefs (g : Graph) : list string :=
  flat_map (fun c =>
              match c with
              | CfnVPCGatewayAttachment _ v _ | CfnRouteTable _ v _
              | CfnSubnet _ v _ _ _ _ | CfnVPCEndpoint _ v _ _ _ => [refId v]
              | SecurityGroup _ v _ _ _ | Instance _ v _ _ _ _ _ _ _ => [v]
              | _ => []
              end)
           (constructs g).

Definition attachments (g : Graph) : list (Ref * Ref) :=
  flat_map (fun c =>
              match c with
              | CfnVPCGatewayAttachment _ v igw => [(v, igw)]
              | _ => []
              end)
           (constructs g).

Definition stackSubnets (s : NetworkingStack) (t : Tier) : list string :=
  match t with
  | Web => webSubnets s
  | App => appSubnets s
  | Data => dataSubnets s
  end.

Definition importedNamed (g : Graph) (id : string) : list Construct :=
  filter (fun c => String.eqb (constructId c) id) (importedSubnets g).

(** The plan with the zone of every subnet blanked. *)
Definition eraseZone (a : Action) : Action :=
  match a with
  | New (CfnSubnet id v block _ public tags) =>
      New (CfnSubnet id v block "" public tags)
  | New (ImportedSubnet id subnet _ table) =>
      New (ImportedSubnet id subnet None table)
  | _ => a
  end.

(** Every name the plan gives: the Name tags, and the name properties of
    the VPC, the security group, the role, the instance and the share. *)
Definition tagNames (tags : list Tag) : list string :=
  flat_map (fun t => if String.eqb (key t) "Name" then [value t] else []) tags.

Definition names (g : Graph) : list string :=
  flat_map (fun a =>
              match a with
              | New (Vpc _ _ _ name _) => [name]
              | New (CfnInternetGateway _ tags) | New (CfnRouteTable _ _ tags)
              | New (CfnSubnet _ _ _ _ _ tags) => tagNames tags
              | New (SecurityGroup _ _ _ _ name) | New (Role _ _ _ name)
              | New (Instance _ _ _ _ _ _ _ name _) => [name]
              | New (CfnResourceShare _ name _ _ _ tags) => name :: tagNames tags
              | AddTag _ k v => if String.eqb k "Name" then [v] else []
              | _ => []
              end)
           g.

(** ** The entry point *)

(** What [bin/aws-cdk-vpc.ts] leaves behind: the id of the stack it asked
    for, how the script ended (with the stack, or with the exception that
    stopped it), the tree of the stack, and the tags put on the app. *)
Record AppRun : Type := mkAppRun {
  stackId : string;
  stackOutcome : result NetworkingStack;
  stackTree : Graph;
  appTags : list Tag
}.

(** [if (s)] on an optional string: undefined and the empty string are
    falsy. *)
Definition truthy (s : option string) : bool :=
  match s with
  | Some (String _ _) => true
  | _ => false
  end.

(** The script, given the configuration it loads and what the platform
    supplies (the zones and the account of the stack; the region is the
    configured one, passed as [env.region]).  [new NetworkingStack] is
    [super] followed by the body of the constructor; an exception ends the
    script, so what follows it is not reached. *)
Definition main (lib : Library) (zones : list string) (accountId : string)
    (config : ConfigProps) : AppRun :=
  let projectName := project config in
  let envName := env config in
  let namePrefix := envName ++ "-" ++ projectName in
  let id := namePrefix ++ "-stack" in
  match newStack lib id (cfgRegion config) with
  | Some e => mkAppRun id (Throw e) [] []
  | None =>
      match constructor lib (mkStackEnv zones (cfgRegion config) accountId)
                        (mkProps config namePrefix) [] with
      | (Throw e, g) => mkAppRun id (Throw e) g []
      | (Ok stack, g) =>
          if truthy (awsApplicationTag config)
          then
            match tagApp lib "awsApplication"
                    (JS.interpolate (awsApplicationTag config)) with
            | Some e => mkAppRun id (Throw e) g []
            | None =>
                mkAppRun id (Ok stack) g
                  [mkTag "awsApplication"
                     (JS.interpolate (awsApplicationTag config))]
            end
          else mkAppRun id (Ok stack) g []
      end
  end.

(** ** Runs compared *)

(** Whatever [m] returns, [m'] returns too. *)
Definition agrees {A} (m m' : M A) : Prop :=
  forall g a g', m g = (Ok a, g') -> m' g = (Ok a, g').

(** Whatever [m] throws, the library raised. *)
Definition blames (lib : Library) {A} (m : M A) : Prop :=
  forall g e g', m g = (Throw e, g') ->
  exists g1 a, perform lib g1 a = Some e.

(** ** Strings *)

Section Split.

Variable sep : ascii.

Lemma split_not_nil (s : string) : JS.split sep s <> [].
Proof.
  destruct s as [|c s]; simpl; [discriminate|].
  destruct (Ascii.eqb c sep); [discriminate|].
  destruct (JS.split sep s); discriminate.
Qed.

Lemma split_hd (s : string) : hd "" (JS.split sep s) = upTo sep s.
Proof.
  induction s as [|c s IH]; simpl; [reflexivity|].
  destruct (Ascii.eqb c sep); [reflexivity|].
  destruct (JS.split sep s) as [|h t] eqn:E.
  - now apply split_not_nil in E.
  - simpl in *. now rewrite IH.
Qed.

Lemma split_second (s : string) :
  nth_error (JS.split sep s) 1 = option_map (upTo sep) (afterFirst sep s).
Proof.
  induction s as [|c s IH]; simpl; [reflexivity|].
  destruct (Ascii.eqb c sep).
  - simpl. rewrite <- split_hd.
    destruct (JS.split sep s) as [|h t] eqn:E; [|reflexivity].
    now apply split_not_nil in E.
  - destruct (JS.split sep s) as [|h t] eqn:E.
    + now apply split_not_nil in E.
    + exact IH.
Qed.

Lemma split_no_sep (s : string) : noChar sep s = true -> JS.split sep s = [s].
Proof.
  induction s as [|c s IH]; simpl; [reflexivity|].
  intros H. apply andb_prop in H as [Hc Hs].
  apply negb_true_iff in Hc. rewrite Hc, (IH Hs). reflexivity.
Qed.

Lemma split_app (s t : string) :
  noChar sep s = true ->
  JS.split sep (s ++ String sep t) = s :: JS.split sep t.
Proof.
  induction s as [|c s IH]; simpl.
  - intros _. now rewrite Ascii.eqb_refl.
  - intros H. apply andb_prop in H as [Hc Hs].
    apply negb_true_iff in Hc. rewrite Hc, (IH Hs). reflexivity.
Qed.

Lemma noChar_app (s t : string) :
  noChar sep (s ++ t) = noChar sep s && noChar sep t.
Proof.
  induction s as [|c s IH]; simpl; [reflexivity|].
  now rewrite IH, andb_assoc.
Qed.

Lemma afterFirst_no_sep (s : string) :
  noChar sep s = true -> afterFirst sep s = None.
Proof.
  induction s as [|c s IH]; simpl; [reflexivity|].
  intros H. apply andb_prop in H as [Hc Hs].
  apply negb_true_iff in Hc. now rewrite Hc, IH.
Qed.

End Split.

Lemma split_prefixField (cidr : string) :
  nth_error (JS.split "/" cidr) 1 = prefixField cidr.
Proof. apply split_second. Qed.

Lemma string_eqb_false_iff (o : option string) (s : string) :
  negb (match o with Some x => String.eqb x s | None => false end) = true
  <-> o <> Some s.
Proof.
  destruct o as [x|]; simpl.
  - rewrite negb_true_iff.
    destruct (String.eqb_spec x s) as [->|N]; split; congruence.
  - split; [discriminate|reflexivity].
Qed.

(** ** Octets, by enumeration *)

Lemma octet_enum (P : Z -> bool) :
  forallb P (map Z.of_nat (seq 0 256)) = true ->
  forall n, octet n -> P n = true.
Proof.
  intros H n [Hlo Hhi].
  rewrite forallb_forall in H. apply H.
  rewrite in_map_iff. exists (Z.to_nat n). split; [lia|].
  apply in_seq. lia.
Qed.

Lemma parseInt_showOctet (n : Z) :
  octet n -> JS.parseInt (showOctet n) = JS.Fin n.
Proof.
  intros H.
  pose (P := fun n => match JS.parseInt (showOctet n) with
                      | JS.Fin z => z =? n
                      | _ => false
                      end).
  assert (E : P n = true) by (apply octet_enum; [vm_compute; reflexivity|exact H]).
  unfold P in E. destruct (JS.parseInt (showOctet n)); try discriminate.
  apply Z.eqb_eq in E. now subst.
Qed.

Lemma toString_octet (n : Z) :
  octet n -> JS.toString (JS.Fin n) = showOctet n.
Proof.
  intros H.
  pose (P := fun n => String.eqb (JS.toString (JS.Fin n)) (showOctet n)).
  assert (E : P n = true) by (apply octet_enum; [vm_compute; reflexivity|exact H]).
  now apply String.eqb_eq in E.
Qed.

Lemma showOctet_plain (n : Z) :
  octet n ->
  noChar "." (showOctet n) = true /\ noChar "/" (showOctet n) = true.
Proof.
  intros H.
  pose (P := fun n => noChar "." (showOctet n) && noChar "/" (showOctet n)).
  assert (E : P n = true) by (apply octet_enum; [vm_compute; reflexivity|exact H]).
  now apply andb_prop in E.
Qed.

(** ** Numbers *)

Lemma fround_exact (z : Z) : Z.abs z < 2 ^ 53 -> JS.fround z = JS.Fin z.
Proof.
  intros H. unfold JS.fround.
  destruct (Z.ltb_spec (Z.abs z) (2 ^ 53)); [reflexivity|lia].
Qed.

Lemma add_exact (a b : Z) :
  Z.abs (a + b) < 2 ^ 53 -> JS.add (JS.Fin a) (JS.Fin b) = JS.Fin (a + b).
Proof. intros H. simpl. now apply fround_exact. Qed.

Lemma mul_exact (a b : Z) :
  Z.abs (a * b) < 2 ^ 53 -> JS.mul (JS.Fin a) (JS.Fin b) = JS.Fin (a * b).
Proof. intros H. simpl. now apply fround_exact. Qed.

Lemma ToUint32_range (x : JS.number) : 0 <= JS.ToUint32 x < 2 ^ 32.
Proof.
  destruct x; simpl; try lia. apply Z.mod_pos_bound. lia.
Qed.

Lemma ToUint32_exact (z : Z) : 0 <= z < 2 ^ 32 -> JS.ToUint32 (JS.Fin z) = z.
Proof. intros H. simpl. now apply Z.mod_small. Qed.

(** [x & 255] keeps the low byte of ToUint32(x), also when ToInt32(x) is
    negative. *)
Lemma band_255 (x : JS.number) :
  JS.band x (JS.Fin 255) = JS.Fin (JS.ToUint32 x mod 256).
Proof.
  unfold JS.band. f_equal.
  replace (JS.ToInt32 (JS.Fin 255)) with (Z.ones 8) by reflexivity.
  rewrite Z.land_ones by lia.
  unfold JS.ToInt32.
  pose proof (ToUint32_range x) as R.
  destruct (2 ^ 31 <=? JS.ToUint32 x); [|reflexivity].
  change (2 ^ 8) with 256.
  replace (JS.ToUint32 x - 2 ^ 32) with (JS.ToUint32 x + (- 2 ^ 24) * 256) by lia.
  apply Z.mod_add. lia.
Qed.

Lemma ushr_const (x : JS.number) (k : Z) :
  0 <= k < 32 ->
  JS.ushr x (JS.Fin k) = JS.Fin (JS.ToUint32 x / 2 ^ k).
Proof.
  intros H. unfold JS.ushr. f_equal.
  rewrite ToUint32_exact by lia.
  rewrite Z.mod_small by lia.
  apply Z.shiftr_div_pow2. lia.
Qed.

Lemma byte_of_shift (u k : Z) :
  0 <= u < 2 ^ 32 -> 0 <= k < 32 ->
  JS.ToUint32 (JS.Fin (u / 2 ^ k)) mod 256 = u / 2 ^ k mod 256.
Proof.
  intros Hu Hk. rewrite ToUint32_exact; [reflexivity|].
  split.
  - apply Z.div_pos; lia.
  - apply Z.le_lt_trans with u; [|lia].
    apply Z.div_le_upper_bound; [lia|]. nia.
Qed.

Lemma mod_256_octet (z : Z) : octet (z mod 256).
Proof. unfold octet. pose proof (Z.mod_pos_bound z 256). lia. Qed.

(** [numberToIp] writes the four bytes of ToUint32(num), whatever [num] is. *)
Lemma numberToIp_spec (num : JS.number) :
  numberToIp num = addrString (JS.ToUint32 num).
Proof.
  unfold numberToIp, addrString, dottedQuad.
  pose proof (ToUint32_range num) as R.
  rewrite !band_255, !ushr_const by lia.
  rewrite !byte_of_shift by lia.
  cbn [JS.join].
  rewrite !toString_octet by apply mod_256_octet.
  reflexivity.
Qed.

Lemma quadValue_range (a b c d : Z) :
  octet a -> octet b -> octet c -> octet d ->
  0 <= quadValue a b c d < 2 ^ 32.
Proof. unfold octet, quadValue. lia. Qed.

Lemma quadValue_bytes (a b c d : Z) :
  octet a -> octet b -> octet c -> octet d ->
  let n := quadValue a b c d in
  n / 2 ^ 24 mod 256 = a /\ n / 2 ^ 16 mod 256 = b
  /\ n / 2 ^ 8 mod 256 = c /\ n mod 256 = d.
Proof.
  unfold octet, quadValue. intros Ha Hb Hc Hd. cbv zeta.
  change (2 ^ 24) with 16777216. change (2 ^ 16) with 65536.
  change (2 ^ 8) with 256.
  repeat split.
  - replace (a * 16777216 + b * 65536 + c * 256 + d)
      with ((b * 65536 + c * 256 + d) + a * 16777216) by lia.
    rewrite Z.div_add by lia. rewrite (Z.div_small (b * 65536 + c * 256 + d)) by lia.
    apply Z.mod_small. lia.
  - replace (a * 16777216 + b * 65536 + c * 256 + d)
      with ((c * 256 + d) + (a * 256 + b) * 65536) by lia.
    rewrite Z.div_add by lia. rewrite (Z.div_small (c * 256 + d)) by lia.
    replace (0 + (a * 256 + b)) with (b + a * 256) by lia.
    rewrite Z.mod_add by lia. apply Z.mod_small. lia.
  - replace (a * 16777216 + b * 65536 + c * 256 + d)
      with (d + (a * 65536 + b * 256 + c) * 256) by lia.
    rewrite Z.div_add by lia. rewrite (Z.div_small d) by lia.
    replace (0 + (a * 65536 + b * 256 + c)) with (c + (a * 256 + b) * 256) by lia.
    rewrite Z.mod_add by lia. apply Z.mod_small. lia.
  - replace (a * 16777216 + b * 65536 + c * 256 + d)
      with (d + (a * 65536 + b * 256 + c) * 256) by lia.
    rewrite Z.mod_add by lia. apply Z.mod_small. lia.
Qed.

Lemma addrString_quadValue (a b c d : Z) :
  octet a -> octet b -> octet c -> octet d ->
  addrString (quadValue a b c d) = dottedQuad a b c d.
Proof.
  intros Ha Hb Hc Hd. unfold addrString.
  destruct (quadValue_bytes a b c d Ha Hb Hc Hd) as (-> & -> & -> & ->).
  reflexivity.
Qed.

Lemma split_dottedQuad (a b c d : Z) :
  octet a -> octet b -> octet c -> octet d ->
  JS.split "." (dottedQuad a b c d)
  = [showOctet a; showOctet b; showOctet c; showOctet d].
Proof.
  intros Ha Hb Hc Hd. unfold dottedQuad.
  assert (E : forall t, "." ++ t = String "." t) by reflexivity.
  rewrite !E.
  rewrite !split_app by (now apply showOctet_plain).
  rewrite split_no_sep by (now apply showOctet_plain).
  reflexivity.
Qed.

Lemma dottedQuad_no_slash (a b c d : Z) :
  octet a -> octet b -> octet c -> octet d ->
  noChar "/" (dottedQuad a b c d) = true.
Proof.
  intros Ha Hb Hc Hd. unfold dottedQuad.
  rewrite !noChar_app.
  destruct (showOctet_plain a Ha) as [_ ->].
  destruct (showOctet_plain b Hb) as [_ ->].
  destruct (showOctet_plain c Hc) as [_ ->].
  destruct (showOctet_plain d Hd) as [_ ->].
  reflexivity.
Qed.

(** [ipToNumber] on a canonical dotted quad. *)
Lemma ipToNumber_dottedQuad (a b c d : Z) :
  octet a -> octet b -> octet c -> octet d ->
  ipToNumber (dottedQuad a b c d) = JS.Fin (quadValue a b c d).
Proof.
  intros Ha Hb Hc Hd. unfold ipToNumber.
  rewrite split_dottedQuad by assumption.
  cbn [fold_left].
  rewrite !parseInt_showOctet by assumption.
  unfold octet in *.
  rewrite (mul_exact 0 256) by lia.
  rewrite (add_exact (0 * 256) a) by lia.
  rewrite mul_exact by lia. rewrite add_exact by lia.
  rewrite mul_exact by lia. rewrite add_exact by lia.
  rewrite mul_exact by lia. rewrite add_exact by lia.
  f_equal. unfold quadValue. lia.
Qed.

Lemma bytes_quadValue (n : Z) :
  0 <= n < 2 ^ 32 ->
  quadValue (n / 2 ^ 24 mod 256) (n / 2 ^ 16 mod 256) (n / 2 ^ 8 mod 256)
            (n mod 256) = n.
Proof.
  intros H. unfold quadValue.
  change (2 ^ 32) with 4294967296 in H.
  change (2 ^ 24) with 16777216. change (2 ^ 16) with 65536.
  change (2 ^ 8) with 256.
  Z.div_mod_to_equations. lia.
Qed.

Lemma ipToNumber_addrString (n : Z) :
  0 <= n < 2 ^ 32 -> ipToNumber (addrString n) = JS.Fin n.
Proof.
  intros H. unfold addrString.
  rewrite ipToNumber_dottedQuad by apply mod_256_octet.
  now rewrite bytes_quadValue.
Qed.

Lemma addrString_no_slash (n : Z) : noChar "/" (addrString n) = true.
Proof. apply dottedQuad_no_slash; apply mod_256_octet. Qed.

(** The allocator on a string with a well-formed prefix field. *)
Lemma allocation_of_prefix_16 (vpcCidr : string) :
  prefixField vpcCidr = Some "16" ->
  calculateFixedSubnetAllocation vpcCidr
  = Ok {| web := subnetBlocks (ipToNumber (upTo "/" vpcCidr)) [0; 1];
          app := subnetBlocks (ipToNumber (upTo "/" vpcCidr)) [2; 3];
          data := subnetBlocks (ipToNumber (upTo "/" vpcCidr)) [4; 5] |}.
Proof.
  intros H. unfold calculateFixedSubnetAllocation.
  rewrite split_prefixField, H, split_hd. reflexivity.
Qed.

Lemma allocation_of_bad_prefix (vpcCidr : string) :
  prefixField vpcCidr <> Some "16" ->
  calculateFixedSubnetAllocation vpcCidr
  = Throw (MkError ("VPC CIDR must be /16, got /"
                    ++ JS.interpolate (prefixField vpcCidr))).
Proof.
  intros H. unfold calculateFixedSubnetAllocation.
  rewrite split_prefixField.
  apply string_eqb_false_iff in H. now rewrite H.
Qed.

Lemma cidrString_fields (b : AddressBlock) :
  octet (prefixLen b) ->
  upTo "/" (cidrString b) = addrString (network b)
  /\ prefixField (cidrString b) = Some (showOctet (prefixLen b)).
Proof.
  intros H. unfold cidrString.
  assert (E : forall t, "/" ++ t = String "/" t) by reflexivity.
  rewrite E.
  pose proof (split_app "/" (addrString (network b)) (showOctet (prefixLen b))
                (addrString_no_slash _)) as S.
  rewrite (split_no_sep "/" (showOctet (prefixLen b))) in S
    by (now apply showOctet_plain).
  rewrite <- split_hd, <- split_prefixField, S. split; reflexivity.
Qed.

(** The block the allocator writes at index [k]. *)
Lemma subnetBlock_string (top : AddressBlock) (k : Z) :
  0 <= network top -> 0 <= k -> network top + k * 4096 < 2 ^ 32 ->
  numberToIp (JS.add (JS.Fin (network top)) (JS.mul (JS.Fin k) subnetSize))
    ++ "/20"
  = cidrString (subBlock top k).
Proof.
  intros Hn Hk Hb. unfold subnetSize.
  rewrite mul_exact by lia. rewrite add_exact by lia.
  rewrite numberToIp_spec, ToUint32_exact by lia.
  reflexivity.
Qed.

(** ** The allocator *)

Example alloc_readme :
  calculateFixedSubnetAllocation "10.10.0.0/16"
  = Ok {| web := ["10.10.0.0/20"; "10.10.16.0/20"];
          app := ["10.10.32.0/20"; "10.10.48.0/20"];
          data := ["10.10.64.0/20"; "10.10.80.0/20"] |}.
Proof. vm_compute. reflexivity. Qed.


(** C6: converting a valid dotted quad to its integer and back gives the
    same string, for all four octets anywhere in 0..255, the boundary
    values 0.0.0.0 and 255.255.255.255 included. *)
Theorem numberToIp_ipToNumber (a b c d : Z) :
  octet a -> octet b -> octet c -> octet d ->
  numberToIp (ipToNumber (dottedQuad a b c d)) = dottedQuad a b c d.
Proof.
  intros Ha Hb Hc Hd.
  rewrite ipToNumber_dottedQuad by assumption.
  rewrite numberToIp_spec.
  rewrite ToUint32_exact by (now apply quadValue_range).
  now apply addrString_quadValue.
Qed.

Lemma numberToIp_ipToNumber_witness :
  numberToIp (ipToNumber "255.255.255.255") = "255.255.255.255".
Proof.
  apply (numberToIp_ipToNumber 255 255 255 255); unfold octet; lia.
Defined.

(** C1: on every valid /16 block the allocator returns six /20 blocks,
    the k-th one starting 4096*k addresses above the base, Web taking
    k = 0, 1, App k = 2, 3 and Data k = 4, 5; the blocks are valid /20
    blocks inside the top-level block, pairwise disjoint, and together they
    are the addresses from base to base + 24576.  For 10.10.0.0/16 these
    are the six blocks of the README table. *)
Theorem allocation_partitions_block (top : AddressBlock) :
  validBlock top -> prefixLen top = 16 ->
  calculateFixedSubnetAllocation (cidrString top)
  = Ok {| web := [cidrString (subBlock top 0); cidrString (subBlock top 1)];
          app := [cidrString (subBlock top 2); cidrString (subBlock top 3)];
          data := [cidrString (subBlock top 4); cidrString (subBlock top 5)] |}
  /\ (forall k, 0 <= k < 6 ->
        validBlock (subBlock top k) /\ prefixLen (subBlock top k) = 20
        /\ forall x, inBlock x (subBlock top k) -> inBlock x top)
  /\ (forall j k x, 0 <= j < 6 -> 0 <= k < 6 ->
        inBlock x (subBlock top j) -> inBlock x (subBlock top k) -> j = k)
  /\ (forall x, (exists k, 0 <= k < 6 /\ inBlock x (subBlock top k))
                <-> network top <= x < network top + 24576)
  /\ calculateFixedSubnetAllocation "10.10.0.0/16"
     = Ok {| web := ["10.10.0.0/20"; "10.10.16.0/20"];
             app := ["10.10.32.0/20"; "10.10.48.0/20"];
             data := ["10.10.64.0/20"; "10.10.80.0/20"] |}.
Proof.
  intros (Hp & Hn & Hb & Ha) H16.
  unfold blockSize in Hb, Ha. rewrite H16 in Hb, Ha.
  change (2 ^ (32 - 16)) with 65536 in Hb, Ha.
  change (2 ^ 32) with 4294967296 in Hb.
  assert (Hoct : octet (prefixLen top)) by (unfold octet; lia).
  destruct (cidrString_fields top Hoct) as [Enet Epre].
  rewrite H16 in Epre.
  split; [|split; [|split; [|split]]].
  - rewrite allocation_of_prefix_16 by exact Epre.
    rewrite Enet, ipToNumber_addrString by (change (2 ^ 32) with 4294967296; lia).
    unfold subnetBlocks. cbn [map].
    rewrite !subnetBlock_string by (change (2 ^ 32) with 4294967296; lia).
    reflexivity.
  - intros k Hk. unfold validBlock, inBlock, blockSize, subBlock.
    cbn [network prefixLen]. rewrite H16.
    change (2 ^ (32 - 20)) with 4096. change (2 ^ (32 - 16)) with 65536.
    change (2 ^ 32) with 4294967296.
    repeat split; try lia.
    apply Z.mod_divide in Ha; [|lia]. destruct Ha as [q Hq].
    replace (network top + k * 4096) with ((q * 16 + k) * 4096) by lia.
    apply Z.mod_mul. lia.
  - intros j k x Hj Hk. unfold inBlock, blockSize, subBlock.
    cbn [network prefixLen]. change (2 ^ (32 - 20)) with 4096. lia.
  - intros x. unfold inBlock, blockSize, subBlock.
    cbn [network prefixLen]. change (2 ^ (32 - 20)) with 4096.
    split.
    + intros (k & Hk & Hx). lia.
    + intros Hx. exists ((x - network top) / 4096).
      pose proof (Z.div_mod (x - network top) 4096 ltac:(lia)) as D.
      pose proof (Z.mod_pos_bound (x - network top) 4096 ltac:(lia)) as B.
      assert (0 <= (x - network top) / 4096 < 6).
      { split; [apply Z.div_pos; lia|apply Z.div_lt_upper_bound; lia]. }
      lia.
  - vm_compute. reflexivity.
Qed.

Lemma allocation_partitions_block_witness :
  calculateFixedSubnetAllocation (cidrString (mkBlock 168427520 16))
  = Ok {| web := ["10.10.0.0/20"; "10.10.16.0/20"];
          app := ["10.10.32.0/20"; "10.10.48.0/20"];
          data := ["10.10.64.0/20"; "10.10.80.0/20"] |}.
Proof.
  refine (proj1 (allocation_partitions_block (mkBlock 168427520 16) _ _)).
  - unfold validBlock, blockSize; cbn [network prefixLen].
    repeat split; try lia; reflexivity.
  - reflexivity.
Defined.

(** Symbolic run of the constructor on a CIDR whose prefix field is 16: the
    six blocks are abstracted, then the zones and the accounts are split
    into the cases the code distinguishes. *)
Ltac enter_constructor Hprefix :=
  unfold newNetworkingStack, constructor;
  rewrite split_prefixField, Hprefix;
  rewrite (allocation_of_prefix_16 _ Hprefix);
  unfold subnetBlocks; cbn [map];
  repeat match goal with
         | |- context [numberToIp ?x ++ "/20"] =>
             generalize (numberToIp x ++ "/20"); intro
         end.

Ltac split_zones :=
  match goal with
  | |- context [availabilityZones ?e] =>
      destruct (availabilityZones e) as [|? [|? ?]] eqn:?
  end.

Ltac split_accounts :=
  match goal with
  | |- context [accounts ?c] =>
      destruct (accounts c) as [[|? ?]|] eqn:?
  end.

Lemma prefix_16_dec (vpcCidr : string) :
  {prefixField vpcCidr = Some "16"} + {prefixField vpcCidr <> Some "16"}.
Proof. decide equality. apply string_dec. Qed.

Lemma constructor_bad_prefix (lib : Library) (e : StackEnv) (p : Props)
    (g : Graph) :
  prefixField (cidr (config p)) <> Some "16" ->
  constructor lib e p g
  = (Throw (prefixError (prefixField (cidr (config p)))), g).
Proof.
  intros H. unfold constructor.
  rewrite split_prefixField.
  apply string_eqb_false_iff in H. rewrite H. reflexivity.
Qed.

Lemma constructor_good_prefix (e : StackEnv) (p : Props) (g : Graph) :
  prefixField (cidr (config p)) = Some "16" ->
  exists stack g',
    constructor recorder e p g = (Ok stack, g')
    /\ calculateFixedSubnetAllocation (cidr (config p))
       = Ok (subnetAllocation stack).
Proof.
  intros Hprefix.
  rewrite (allocation_of_prefix_16 _ Hprefix).
  unfold constructor.
  rewrite split_prefixField, Hprefix.
  rewrite (allocation_of_prefix_16 _ Hprefix).
  generalize (subnetBlocks (ipToNumber (upTo "/" (cidr (config p)))) [0; 1]).
  generalize (subnetBlocks (ipToNumber (upTo "/" (cidr (config p)))) [2; 3]).
  generalize (subnetBlocks (ipToNumber (upTo "/" (cidr (config p)))) [4; 5]).
  intros d a w.
  split_zones; split_accounts;
    do 2 eexists; (split; [reflexivity|]); reflexivity.
Qed.

(** ** Runs with a library that may throw *)

Section Runs.

Variable lib : Library.

Lemma agrees_refl {A} (m : M A) : agrees m m.
Proof. intros g a g' H. exact H. Qed.

Lemma agrees_bind {A B} (m m' : M A) (k k' : A -> M B) :
  agrees m m' -> (forall a, agrees (k a) (k' a)) ->
  agrees (bind m k) (bind m' k').
Proof.
  intros Hm Hk g b g' H. unfold bind in *.
  destruct (m g) as [[a|e] g1] eqn:E; [|discriminate H].
  rewrite (Hm _ _ _ E). now apply Hk.
Qed.

Lemma agrees_emit (a : Action) : agrees (emit lib a) (emit recorder a).
Proof.
  intros g u g' H. unfold emit in *. cbn [perform recorder].
  destruct (perform lib g a); [discriminate H|exact H].
Qed.

Lemma agrees_create (c : Construct) :
  agrees (create lib c) (create recorder c).
Proof. apply agrees_emit. Qed.

Lemma agrees_mapIndexed {A B} (f f' : A -> nat -> M B) :
  (forall x i, agrees (f x i) (f' x i)) ->
  forall l i, agrees (mapIndexed f l i) (mapIndexed f' l i).
Proof.
  intros Hf l. induction l as [|x l IH]; intros i; cbn [mapIndexed].
  - apply agrees_refl.
  - apply agrees_bind; [apply Hf|]. intros y.
    apply agrees_bind; [apply IH|]. intros ys. apply agrees_refl.
Qed.

Lemma blames_ret {A} (a : A) : blames lib (ret a).
Proof. intros g e g' H. discriminate H. Qed.

Lemma blames_Ok {A} (a : A) : blames lib (liftResult (Ok a)).
Proof. intros g e g' H. discriminate H. Qed.

Lemma blames_bind {A B} (m : M A) (k : A -> M B) :
  blames lib m -> (forall a, blames lib (k a)) -> blames lib (bind m k).
Proof.
  intros Hm Hk g e g' H. unfold bind in H.
  destruct (m g) as [[a|e0] g1] eqn:E.
  - exact (Hk a _ _ _ H).
  - injection H as -> _. exact (Hm _ _ _ E).
Qed.

Lemma blames_emit (a : Action) : blames lib (emit lib a).
Proof.
  intros g e g' H. unfold emit in H.
  destruct (perform lib g a) as [e0|] eqn:E; [|discriminate H].
  injection H as -> _. now exists g, a.
Qed.

Lemma blames_create (c : Construct) : blames lib (create lib c).
Proof. apply blames_emit. Qed.

Lemma blames_mapIndexed {A B} (f : A -> nat -> M B) :
  (forall x i, blames lib (f x i)) ->
  forall l i, blames lib (mapIndexed f l i).
Proof.
  intros Hf l. induction l as [|x l IH]; intros i; cbn [mapIndexed].
  - apply blames_ret.
  - apply blames_bind; [apply Hf|]. intros y.
    apply blames_bind; [apply IH|]. intros ys. apply blames_ret.
Qed.

Ltac step_agrees :=
  repeat first
    [ apply agrees_bind; [|intro]
    | apply agrees_create
    | apply agrees_emit
    | apply agrees_mapIndexed; intros; unfold createSubnet, importSubnet
    | apply agrees_refl
    | match goal with
      | |- agrees (if ?c then _ else _) _ => destruct c
      end ].

Ltac step_blames :=
  repeat first
    [ apply blames_bind; [|intro]
    | apply blames_create
    | apply blames_emit
    | apply blames_mapIndexed; intros; unfold createSubnet, importSubnet
    | apply blames_ret
    | apply blames_Ok
    | match goal with
      | |- blames _ (if ?c then _ else _) => destruct c
      end ].

(** What the constructor returns with the library at hand, it returns with
    the library that raises nothing. *)
Lemma constructor_agrees (e : StackEnv) (p : Props) :
  agrees (constructor lib e p) (constructor recorder e p).
Proof. unfold constructor. cbv zeta. step_agrees. Qed.

(** Past the prefix check, whatever the constructor throws was raised by
    the library. *)
Lemma constructor_blames (e : StackEnv) (p : Props) :
  prefixField (cidr (config p)) = Some "16" ->
  blames lib (constructor lib e p).
Proof.
  intros Hp. unfold constructor.
  rewrite split_prefixField, Hp, (allocation_of_prefix_16 _ Hp).
  cbv zeta. cbv beta iota.
  change (negb (String.eqb "16" "16")) with false. cbv iota.
  step_blames.
Qed.

Lemma returned_prefix (e : StackEnv) (p : Props) (g g' : Graph)
    (stack : NetworkingStack) :
  constructor lib e p g = (Ok stack, g') ->
  prefixField (cidr (config p)) = Some "16".
Proof.
  intros H. destruct (prefix_16_dec (cidr (config p))) as [Hp|Hp]; [exact Hp|].
  rewrite (constructor_bad_prefix lib e p g Hp) in H. discriminate H.
Qed.

(** A run that returned is the run of the recorder. *)
Lemma returned_as_recorded (e : StackEnv) (p : Props) (g : Graph)
    (stack : NetworkingStack) :
  newNetworkingStack lib e p = (Ok stack, g) ->
  prefixField (cidr (config p)) = Some "16"
  /\ newNetworkingStack recorder e p = (Ok stack, g).
Proof.
  unfold newNetworkingStack. intros H. split.
  - exact (returned_prefix _ _ _ _ _ H).
  - exact (constructor_agrees e p _ _ _ H).
Qed.

End Runs.

(** From a property of the recorded run to the same property of a run
    that returned. *)
Ltac recorded H L :=
  let Hp := fresh "Hp" in
  let Hr := fresh "Hr" in
  let E := fresh "E" in
  apply returned_as_recorded in H; destruct H as [Hp Hr];
  destruct (L Hp) as (? & ? & E & ?);
  rewrite Hr in E; injection E as <- <-.

(** ** The plan *)

(** C3: when the prefix field of the top-level block is not 16, the
    constructor throws the prefix error, whose message quotes the offending
    prefix, and the tree is as it was before the call: nothing has been
    created, whatever the library would do.  The allocator rejects the same
    input with its own message. *)
Theorem invalid_prefix_aborts (lib : Library) (e : StackEnv) (p : Props)
    (g : Graph) :
  prefixField (cidr (config p)) <> Some "16" ->
  constructor lib e p g
  = (Throw (MkError ("VPC CIDR must be /16, got /"
                     ++ JS.interpolate (prefixField (cidr (config p)))
                     ++ ". This CDK is designed for /16 VPCs with /20 subnets.")),
     g)
  /\ calculateFixedSubnetAllocation (cidr (config p))
     = Throw (MkError ("VPC CIDR must be /16, got /"
                       ++ JS.interpolate (prefixField (cidr (config p))))).
Proof.
  intros H. split.
  - now apply constructor_bad_prefix.
  - now apply allocation_of_bad_prefix.
Qed.

Lemma invalid_prefix_aborts_witness :
  constructor recorder demoEnv (withCidr demoProps "10.10.0.0/24") []
  = (Throw (MkError "VPC CIDR must be /16, got /24. This CDK is designed for /16 VPCs with /20 subnets."),
     [])
  /\ calculateFixedSubnetAllocation "10.10.0.0/24"
     = Throw (MkError "VPC CIDR must be /16, got /24").
Proof.
  apply (invalid_prefix_aborts recorder demoEnv
           (withCidr demoProps "10.10.0.0/24") []).
  vm_compute. discriminate.
Defined.

Lemma default_routes_recorded (e : StackEnv) (p : Props) :
  prefixField (cidr (config p)) = Some "16" ->
  exists stack g,
    newNetworkingStack recorder e p = (Ok stack, g)
    /\ (internetGateways g = ["InternetGateway"]
        /\ map constructId (instances g) = [natInstance stack]
        /\ routeTables g
           = [routeTableOf Web; routeTableOf App; routeTableOf Data]
        /\ defaultRouteTargets g (routeTableOf Web)
           = [gatewayId (RefOf "InternetGateway")]
        /\ defaultRouteTargets g (routeTableOf App)
           = [instanceId (RefOf (natInstance stack))]
        /\ defaultRouteTargets g (routeTableOf Data) = []).
Proof.
  intros Hprefix.
  enter_constructor Hprefix. split_zones; split_accounts.
  all: do 2 eexists; (split; [reflexivity|]).
  all: vm_compute; repeat split.
Qed.

(** C4: in the plan of every run of the constructor that returns, the Web
    route table has exactly one default route and it goes to the internet
    gateway, the App route table has exactly one and it goes to the NAT
    instance, and the Data route table has none. *)
Theorem default_routes (lib : Library) (e : StackEnv) (p : Props)
    (stack : NetworkingStack) (g : Graph) :
  newNetworkingStack lib e p = (Ok stack, g) ->
  internetGateways g = ["InternetGateway"]
  /\ map constructId (instances g) = [natInstance stack]
  /\ routeTables g = [routeTableOf Web; routeTableOf App; routeTableOf Data]
  /\ defaultRouteTargets g (routeTableOf Web)
     = [gatewayId (RefOf "InternetGateway")]
  /\ defaultRouteTargets g (routeTableOf App)
     = [instanceId (RefOf (natInstance stack))]
  /\ defaultRouteTargets g (routeTableOf Data) = [].
Proof.
  intros H. recorded H (default_routes_recorded e p). assumption.
Qed.

Lemma default_routes_witness :
  exists stack g,
    newNetworkingStack recorder demoEnv demoProps = (Ok stack, g)
    /\ internetGateways g = ["InternetGateway"]
    /\ map constructId (instances g) = [natInstance stack]
    /\ routeTables g = [routeTableOf Web; routeTableOf App; routeTableOf Data]
    /\ defaultRouteTargets g (routeTableOf Web)
       = [gatewayId (RefOf "InternetGateway")]
    /\ defaultRouteTargets g (routeTableOf App)
       = [instanceId (RefOf (natInstance stack))]
    /\ defaultRouteTargets g (routeTableOf Data) = [].
Proof.
  destruct (newNetworkingStack recorder demoEnv demoProps) as [[stack|err] g]
    eqn:E.
  - exists stack, g. split; [reflexivity|].
    apply (default_routes recorder demoEnv demoProps). exact E.
  - vm_compute in E. discriminate E.
Defined.

Lemma subnets_follow_allocation_recorded (e : StackEnv) (p : Props)
    (z0 z1 : string) (more : list string) :
  availabilityZones e = z0 :: z1 :: more ->
  prefixField (cidr (config p)) = Some "16" ->
  exists stack g,
    newNetworkingStack recorder e p = (Ok stack, g)
    /\ (length (subnets g) = 6%nat
        /\ length (associations g) = 6%nat
        /\ forall (t : Tier) (index : nat), (index < 2)%nat ->
             exists subnet block,
               subnetsNamed g (subnetOf t index) = [subnet]
               /\ nth_error (blocksOf (subnetAllocation stack) t) index
                  = Some block
               /\ subnetCidrBlock subnet = Some block
               /\ subnetZone subnet = nth_error [z0; z1] index
               /\ (isPublic subnet = true <-> t = Web)
               /\ associationsOf g (subnetOf t index)
                  = [RefOf (routeTableOf t)]
               /\ In (routeTableOf t) (routeTables g)).
Proof.
  intros Hzones Hprefix.
  enter_constructor Hprefix. rewrite Hzones. split_accounts.
  all: do 2 eexists; (split; [reflexivity|]).
  all: split; [reflexivity|]; split; [reflexivity|].
  all: intros t index Hindex.
  all: destruct index as [|[|index]]; [| |lia].
  all: destruct t; do 2 eexists.
  all: split; [reflexivity|]; split; [reflexivity|].
  all: split; [reflexivity|]; split; [reflexivity|].
  all: split; [split; [intros; reflexivity || discriminate
                      |intros; reflexivity || discriminate]|].
  all: split; [reflexivity|]; vm_compute; tauto.
Qed.

(** C7: in every run that returns with two zones available, each of the
    six (tier, zone index) pairs has exactly one subnet; it carries the
    block the allocation gives the pair and the zone at that index, it is
    public exactly when the tier is Web, and it has exactly one route-table
    association, to the route table of its tier.  There are no other
    subnets and no other associations. *)
Theorem subnets_follow_allocation (lib : Library) (e : StackEnv) (p : Props)
    (z0 z1 : string) (more : list string)
    (stack : NetworkingStack) (g : Graph) :
  newNetworkingStack lib e p = (Ok stack, g) ->
  availabilityZones e = z0 :: z1 :: more ->
  length (subnets g) = 6%nat
  /\ length (associations g) = 6%nat
  /\ forall (t : Tier) (index : nat), (index < 2)%nat ->
       exists subnet block,
         subnetsNamed g (subnetOf t index) = [subnet]
         /\ nth_error (blocksOf (subnetAllocation stack) t) index = Some block
         /\ subnetCidrBlock subnet = Some block
         /\ subnetZone subnet = nth_error [z0; z1] index
         /\ (isPublic subnet = true <-> t = Web)
         /\ associationsOf g (subnetOf t index) = [RefOf (routeTableOf t)]
         /\ In (routeTableOf t) (routeTables g).
Proof.
  intros H Hzones.
  recorded H (subnets_follow_allocation_recorded e p z0 z1 more Hzones).
  assumption.
Qed.

Lemma subnets_follow_allocation_witness :
  exists stack g,
    newNetworkingStack recorder demoEnv demoProps = (Ok stack, g)
    /\ length (subnets g) = 6%nat
    /\ length (associations g) = 6%nat
    /\ forall (t : Tier) (index : nat), (index < 2)%nat ->
         exists subnet block,
           subnetsNamed g (subnetOf t index) = [subnet]
           /\ nth_error (blocksOf (subnetAllocation stack) t) index = Some block
           /\ subnetCidrBlock subnet = Some block
           /\ subnetZone subnet = nth_error ["us-east-1a"; "us-east-1b"] index
           /\ (isPublic subnet = true <-> t = Web)
           /\ associationsOf g (subnetOf t index) = [RefOf (routeTableOf t)]
           /\ In (routeTableOf t) (routeTables g).
Proof.
  destruct (newNetworkingStack recorder demoEnv demoProps) as [[stack|err] g]
    eqn:E.
  - exists stack, g. split; [reflexivity|].
    apply (subnets_follow_allocation recorder demoEnv demoProps
             "us-east-1a" "us-east-1b" ["us-east-1c"]);
      [exact E|reflexivity].
  - vm_compute in E. discriminate E.
Defined.

Lemma resource_share_recorded (e : StackEnv) (p : Props) :
  prefixField (cidr (config p)) = Some "16" ->
  exists stack g,
    newNetworkingStack recorder e p = (Ok stack, g)
    /\ ((accounts (config p) = None \/ accounts (config p) = Some [] ->
         resourceShares g = [])
        /\ (forall principals,
              accounts (config p) = Some principals -> principals <> [] ->
              exists share,
                resourceShares g = [share]
                /\ sharePrincipals share = principals
                /\ shareAllowsExternal share = false
                /\ map arnSubnet (shareArns share)
                   = map (fun c => RefOf (constructId c)) (subnets g)
                /\ ((2 <= length (availabilityZones e))%nat ->
                    map arnSubnet (shareArns share)
                    = [ RefOf (subnetOf Web 0); RefOf (subnetOf Web 1);
                        RefOf (subnetOf App 0); RefOf (subnetOf App 1);
                        RefOf (subnetOf Data 0); RefOf (subnetOf Data 1) ]))).
Proof.
  intros Hprefix.
  enter_constructor Hprefix. split_zones; split_accounts.
  all: do 2 eexists; (split; [reflexivity|]).
  all: split; [intros [N|N]; (discriminate N || reflexivity)|].
  all: intros principals [= <-] Hne; try congruence.
  all: eexists; split; [reflexivity|].
  all: repeat (split; [reflexivity|]).
  all: cbn [length]; intros Hz; (lia || reflexivity).
Qed.

(** C5: past the prefix check the constructor has no error of its own, with
    or without accounts: it returns, or it throws what the library raised.
    In every run that returns: without accounts (none configured, or an
    empty list) the plan has no resource share; with a non-empty list it
    has exactly one, whose principals are the configured accounts, which
    does not allow external principals, and whose ARNs name the subnets of
    the plan, all of them and in order: with two zones these are the six
    subnets Web 0, Web 1, App 0, App 1, Data 0, Data 1. *)
Theorem resource_share (lib : Library) (e : StackEnv) (p : Props) :
  prefixField (cidr (config p)) = Some "16" ->
  match newNetworkingStack lib e p with
  | (Throw err, _) => exists g1 a, perform lib g1 a = Some err
  | (Ok stack, g) =>
      (accounts (config p) = None \/ accounts (config p) = Some [] ->
       resourceShares g = [])
      /\ (forall principals,
            accounts (config p) = Some principals -> principals <> [] ->
            exists share,
              resourceShares g = [share]
              /\ sharePrincipals share = principals
              /\ shareAllowsExternal share = false
              /\ map arnSubnet (shareArns share)
                 = map (fun c => RefOf (constructId c)) (subnets g)
              /\ ((2 <= length (availabilityZones e))%nat ->
                  map arnSubnet (shareArns share)
                  = [ RefOf (subnetOf Web 0); RefOf (subnetOf Web 1);
                      RefOf (subnetOf App 0); RefOf (subnetOf App 1);
                      RefOf (subnetOf Data 0); RefOf (subnetOf Data 1) ]))
  end.
Proof.
  intros Hprefix.
  destruct (newNetworkingStack lib e p) as [[stack|err] g] eqn:H.
  - recorded H (resource_share_recorded e p). assumption.
  - exact (constructor_blames lib e p Hprefix _ _ _ H).
Qed.

Lemma resource_share_witness :
  exists stack g share,
    newNetworkingStack recorder demoEnv demoProps = (Ok stack, g)
    /\ resourceShares g = [share]
    /\ sharePrincipals share = ["123456789012"]
    /\ shareAllowsExternal share = false
    /\ map arnSubnet (shareArns share)
       = [ RefOf (subnetOf Web 0); RefOf (subnetOf Web 1);
           RefOf (subnetOf App 0); RefOf (subnetOf App 1);
           RefOf (subnetOf Data 0); RefOf (subnetOf Data 1) ].
Proof.
  pose proof (resource_share recorder demoEnv demoProps eq_refl) as R.
  destruct (newNetworkingStack recorder demoEnv demoProps) as [[stack|err] g]
    eqn:E.
  - destruct R as [_ R].
    destruct (R ["123456789012"] eq_refl ltac:(discriminate))
      as (share & Hs & Hp & Hx & _ & H6).
    exists stack, g, share. repeat split; try assumption.
    apply H6. cbn. lia.
  - vm_compute in E. discriminate E.
Defined.

Lemma nat_instance_placement_recorded (e : StackEnv) (p : Props)
    (z0 : string) (more : list string) :
  availabilityZones e = z0 :: more ->
  prefixField (cidr (config p)) = Some "16" ->
  exists stack g,
    newNetworkingStack recorder e p = (Ok stack, g)
    /\ exists natI web0 imported subnet sg theVpc,
         instances g = [natI]
         /\ constructId natI = natInstance stack
         /\ nth_error (webSubnets stack) 0 = Some web0
         /\ instanceSubnets natI = [Some web0]
         /\ filter (fun c => String.eqb (constructId c) web0)
                   (importedSubnets g)
            = [imported]
         /\ importedSubnetId imported = Some (RefOf (subnetOf Web 0))
         /\ subnetsNamed g (subnetOf Web 0) = [subnet]
         /\ isPublic subnet = true
         /\ sourceDestCheck natI = Some false
         /\ instanceSecurityGroup natI = Some sg
         /\ vpcs g = [theVpc]
         /\ ingressRules g sg
            = [(ipv4_vpcCidrBlock (constructId theVpc), allTraffic)]
         /\ vpcIpAddresses theVpc = Some (cidr (config p)).
Proof.
  intros Hzones Hprefix.
  enter_constructor Hprefix. rewrite Hzones.
  destruct more as [|z1 more]; split_accounts.
  all: do 2 eexists; (split; [reflexivity|]); do 6 eexists.
  all: repeat (split; [reflexivity|]); reflexivity.
Qed.

(** C8: in every run that returns with at least one zone, the plan has one
    instance, the NAT instance; its only subnet is the first of the stack's
    Web subnets, which stands for the Web subnet of index 0, a public one;
    its source/destination check is off; and its security group has one
    ingress rule, all traffic from the CIDR block of the VPC, which is the
    top-level block of the configuration. *)
Theorem nat_instance_placement (lib : Library) (e : StackEnv) (p : Props)
    (z0 : string) (more : list string)
    (stack : NetworkingStack) (g : Graph) :
  newNetworkingStack lib e p = (Ok stack, g) ->
  availabilityZones e = z0 :: more ->
  exists natI web0 imported subnet sg theVpc,
    instances g = [natI]
    /\ constructId natI = natInstance stack
    /\ nth_error (webSubnets stack) 0 = Some web0
    /\ instanceSubnets natI = [Some web0]
    /\ filter (fun c => String.eqb (constructId c) web0) (importedSubnets g)
       = [imported]
    /\ importedSubnetId imported = Some (RefOf (subnetOf Web 0))
    /\ subnetsNamed g (subnetOf Web 0) = [subnet]
    /\ isPublic subnet = true
    /\ sourceDestCheck natI = Some false
    /\ instanceSecurityGroup natI = Some sg
    /\ vpcs g = [theVpc]
    /\ ingressRules g sg = [(ipv4_vpcCidrBlock (constructId theVpc), allTraffic)]
    /\ vpcIpAddresses theVpc = Some (cidr (config p)).
Proof.
  intros H Hzones.
  recorded H (nat_instance_placement_recorded e p z0 more Hzones).
  assumption.
Qed.

Lemma nat_instance_placement_witness :
  exists stack g natI web0 imported subnet sg theVpc,
    newNetworkingStack recorder demoEnv demoProps = (Ok stack, g)
    /\ instances g = [natI]
    /\ constructId natI = natInstance stack
    /\ nth_error (webSubnets stack) 0 = Some web0
    /\ instanceSubnets natI = [Some web0]
    /\ filter (fun c => String.eqb (constructId c) web0) (importedSubnets g)
       = [imported]
    /\ importedSubnetId imported = Some (RefOf (subnetOf Web 0))
    /\ subnetsNamed g (subnetOf Web 0) = [subnet]
    /\ isPublic subnet = true
    /\ sourceDestCheck natI = Some false
    /\ instanceSecurityGroup natI = Some sg
    /\ vpcs g = [theVpc]
    /\ ingressRules g sg = [(ipv4_vpcCidrBlock (constructId theVpc), allTraffic)]
    /\ vpcIpAddresses theVpc = Some (cidr (config demoProps)).
Proof.
  destruct (newNetworkingStack recorder demoEnv demoProps) as [[stack|err] g]
    eqn:E.
  - destruct (nat_instance_placement recorder demoEnv demoProps "us-east-1a"
                ["us-east-1b"; "us-east-1c"] stack g E eq_refl)
      as (natI & web0 & imported & subnet & sg & theVpc & H).
    exists stack, g, natI, web0, imported, subnet, sg, theVpc.
    split; [reflexivity|exact H].
  - vm_compute in E. discriminate E.
Defined.

(** C9: the allocation is a function of the CIDR string alone.  Two calls
    of the allocator on the same string return the same result, and two
    runs of the constructor that return, on configurations with the same
    CIDR, whatever the library, the zones, the region, the account, the
    name prefix, the accounts and the tree of each, expose the same
    allocation, the one the allocator returns for that string. *)
Theorem allocation_deterministic (lib1 lib2 : Library) (e1 e2 : StackEnv)
    (p1 p2 : Props) (g1 g2 g1' g2' : Graph) (s1 s2 : NetworkingStack) :
  cidr (config p1) = cidr (config p2) ->
  constructor lib1 e1 p1 g1 = (Ok s1, g1') ->
  constructor lib2 e2 p2 g2 = (Ok s2, g2') ->
  calculateFixedSubnetAllocation (cidr (config p1))
  = calculateFixedSubnetAllocation (cidr (config p2))
  /\ subnetAllocation s1 = subnetAllocation s2
  /\ calculateFixedSubnetAllocation (cidr (config p1))
     = Ok (subnetAllocation s1).
Proof.
  intros Hcidr H1 H2.
  assert (A : forall lib e p g s g',
             constructor lib e p g = (Ok s, g') ->
             calculateFixedSubnetAllocation (cidr (config p))
             = Ok (subnetAllocation s)).
  { intros lib e p g s g' H.
    pose proof (returned_prefix lib e p g g' s H) as Hp.
    apply constructor_agrees in H.
    destruct (constructor_good_prefix e p g Hp) as (s' & g'' & E & HA).
    rewrite H in E. now injection E as <- _. }
  apply A in H1. apply A in H2.
  split; [now rewrite Hcidr|]. split; [|exact H1].
  rewrite Hcidr in H1. congruence.
Qed.

Lemma allocation_deterministic_witness :
  exists s1 s2,
    fst (constructor recorder demoEnv demoProps []) = Ok s1
    /\ fst (constructor recorder otherEnv otherProps []) = Ok s2
    /\ subnetAllocation s1 = subnetAllocation s2
    /\ calculateFixedSubnetAllocation "10.10.0.0/16"
       = Ok (subnetAllocation s1).
Proof.
  destruct (constructor recorder demoEnv demoProps []) as [[s1|x1] g1'] eqn:E1;
    [|vm_compute in E1; discriminate E1].
  destruct (constructor recorder otherEnv otherProps []) as [[s2|x2] g2'] eqn:E2;
    [|vm_compute in E2; discriminate E2].
  exists s1, s2. split; [reflexivity|]. split; [reflexivity|].
  exact (proj2 (allocation_deterministic recorder recorder demoEnv otherEnv
                  demoProps otherProps [] [] g1' g2' s1 s2 eq_refl E1 E2)).
Defined.

(** C2, as the code has it: the conversion validates nothing and cannot
    fail.  On a valid dotted quad it returns the 32-bit value of the four
    octets; and whatever stands before the slash, the allocator succeeds as
    soon as the prefix field is 16, with the blocks computed from whatever
    number (or NaN) the conversion returns. *)
Theorem ipToNumber_no_validation (a b c d : Z) (vpcCidr : string) :
  octet a -> octet b -> octet c -> octet d ->
  prefixField vpcCidr = Some "16" ->
  ipToNumber (dottedQuad a b c d) = JS.Fin (quadValue a b c d)
  /\ calculateFixedSubnetAllocation vpcCidr
     = Ok {| web := subnetBlocks (ipToNumber (upTo "/" vpcCidr)) [0; 1];
             app := subnetBlocks (ipToNumber (upTo "/" vpcCidr)) [2; 3];
             data := subnetBlocks (ipToNumber (upTo "/" vpcCidr)) [4; 5] |}.
Proof.
  intros Ha Hb Hc Hd Hp. split.
  - now apply ipToNumber_dottedQuad.
  - now apply allocation_of_prefix_16.
Qed.

Lemma ipToNumber_no_validation_witness :
  ipToNumber "10.10.0.0" = JS.Fin 168427520
  /\ calculateFixedSubnetAllocation "300.1/16"
     = Ok {| web := ["0.1.44.1/20"; "0.1.60.1/20"];
             app := ["0.1.76.1/20"; "0.1.92.1/20"];
             data := ["0.1.108.1/20"; "0.1.124.1/20"] |}.
Proof.
  apply (ipToNumber_no_validation 10 10 0 0 "300.1/16");
    unfold octet; try lia; reflexivity.
Defined.

(** C2, as the specification has it, fails: a string of three parts, an
    octet of 256 and a string with no digits at all are converted without
    any error (to 66051, to 2^32 and to NaN), and the allocator accepts
    them as the address of a /16 block. *)
Lemma ipToNumber_accepts_malformed :
  JS.split "." "1.2.3" = ["1"; "2"; "3"]
  /\ ipToNumber "1.2.3" = JS.Fin 66051
  /\ ipToNumber "256.0.0.0" = JS.Fin 4294967296
  /\ ipToNumber "a.b.c.d" = JS.NaN
  /\ calculateFixedSubnetAllocation "1.2.3/16"
     = Ok {| web := ["0.1.2.3/20"; "0.1.18.3/20"];
             app := ["0.1.34.3/20"; "0.1.50.3/20"];
             data := ["0.1.66.3/20"; "0.1.82.3/20"] |}
  /\ calculateFixedSubnetAllocation "256.0.0.0/16"
     = Ok {| web := ["0.0.0.0/20"; "0.0.16.0/20"];
             app := ["0.0.32.0/20"; "0.0.48.0/20"];
             data := ["0.0.64.0/20"; "0.0.80.0/20"] |}.
Proof. vm_compute. repeat split. Qed.

(** C10, as the code has it: the prefix check compares the prefix field of
    the CIDR, the text between the first slash and the next one or the end,
    with the string 16.  When the field differs the constructor throws the
    prefix error; when it is 16 the check passes, and whatever the
    constructor still throws was raised by the library; so a run returns
    only if the field is 16, and, for a library that does not itself raise
    the prefix error, the constructor throws the prefix error exactly when
    the field is not 16.  The comparison is textual: 016 and 16 followed by
    a space are rejected with the prefix error, and so is a string with no
    slash at all, whose reported prefix is undefined. *)
Theorem prefix_check_is_textual (lib : Library) (e : StackEnv) (p : Props)
    (g : Graph) :
  (prefixField (cidr (config p)) <> Some "16" ->
   constructor lib e p g
   = (Throw (prefixError (prefixField (cidr (config p)))), g))
  /\ (prefixField (cidr (config p)) = Some "16" ->
      forall err g', constructor lib e p g = (Throw err, g') ->
      exists g1 a, perform lib g1 a = Some err)
  /\ ((exists stack g', constructor lib e p g = (Ok stack, g')) ->
      prefixField (cidr (config p)) = Some "16")
  /\ ((forall g1 a,
         perform lib g1 a
         <> Some (prefixError (prefixField (cidr (config p))))) ->
      (fst (constructor lib e p g)
       = Throw (prefixError (prefixField (cidr (config p))))
       <-> prefixField (cidr (config p)) <> Some "16"))
  /\ constructor lib e (withCidr p "10.0.0.0/016") g
     = (Throw (MkError "VPC CIDR must be /16, got /016. This CDK is designed for /16 VPCs with /20 subnets."), g)
  /\ constructor lib e (withCidr p "10.0.0.0/16 ") g
     = (Throw (MkError "VPC CIDR must be /16, got /16 . This CDK is designed for /16 VPCs with /20 subnets."), g)
  /\ (noChar "/" (cidr (config p)) = true ->
      constructor lib e p g
      = (Throw (MkError "VPC CIDR must be /16, got /undefined. This CDK is designed for /16 VPCs with /20 subnets."), g)).
Proof.
  split; [|split; [|split; [|split; [|split; [|split]]]]].
  - apply constructor_bad_prefix.
  - intros Hp err g' H. exact (constructor_blames lib e p Hp _ _ _ H).
  - intros (stack & g' & E). exact (returned_prefix lib e p g g' stack E).
  - intros Hlib. split.
    + intros H Hp.
      destruct (constructor lib e p g) as [r g'] eqn:E. cbn [fst] in H.
      subst r.
      destruct (constructor_blames lib e p Hp _ _ _ E) as (g1 & a & Ha).
      exact (Hlib g1 a Ha).
    + intros Hp. now rewrite constructor_bad_prefix.
  - rewrite constructor_bad_prefix; [reflexivity|]. vm_compute. discriminate.
  - rewrite constructor_bad_prefix; [reflexivity|]. vm_compute. discriminate.
  - intros Hno.
    assert (E : prefixField (cidr (config p)) = None).
    { unfold prefixField. now rewrite afterFirst_no_sep. }
    rewrite constructor_bad_prefix; rewrite E; [reflexivity|discriminate].
Qed.

Lemma prefix_check_is_textual_witness :
  constructor recorder demoEnv (withCidr demoProps "10.0.0.0") []
  = (Throw (MkError "VPC CIDR must be /16, got /undefined. This CDK is designed for /16 VPCs with /20 subnets."), [])
  /\ (fst (constructor recorder demoEnv (withCidr demoProps "10.0.0.0/8") [])
      = Throw (prefixError (Some "8"))
      <-> Some "8" <> Some "16").
Proof.
  split.
  - refine (proj2 (proj2 (proj2 (proj2 (proj2 (proj2
      (prefix_check_is_textual recorder demoEnv
         (withCidr demoProps "10.0.0.0") [])))))) _).
    reflexivity.
  - refine (proj1 (proj2 (proj2 (proj2
      (prefix_check_is_textual recorder demoEnv
         (withCidr demoProps "10.0.0.0/8") [])))) _).
    intros g1 a. discriminate.
Defined.

(** C10, as stated, fails: in 10.0.0.0/16/24 the text after the first
    slash is 16/24, not 16, and yet the check passes, since only the text up
    to the second slash is compared; the allocator succeeds, and so does the
    constructor when the library raises nothing. *)
Lemma prefix_check_ignores_second_slash :
  afterFirst "/" "10.0.0.0/16/24" = Some "16/24"
  /\ "16/24" <> "16"
  /\ prefixField "10.0.0.0/16/24" = Some "16"
  /\ calculateFixedSubnetAllocation "10.0.0.0/16/24"
     = Ok {| web := ["10.0.0.0/20"; "10.0.16.0/20"];
             app := ["10.0.32.0/20"; "10.0.48.0/20"];
             data := ["10.0.64.0/20"; "10.0.80.0/20"] |}
  /\ fst (newNetworkingStack recorder demoEnv
            (withCidr demoProps "10.0.0.0/16/24"))
     = Ok {| vpc := "VPC";
             webSubnets := ["WebSubnetRef0"; "WebSubnetRef1"];
             appSubnets := ["AppSubnetRef0"; "AppSubnetRef1"];
             dataSubnets := ["DataSubnetRef0"; "DataSubnetRef1"];
             natInstance := "NatInstance";
             subnetAllocation :=
               {| web := ["10.0.0.0/20"; "10.0.16.0/20"];
                  app := ["10.0.32.0/20"; "10.0.48.0/20"];
                  data := ["10.0.64.0/20"; "10.0.80.0/20"] |} |}.
Proof.
  split; [reflexivity|]. split; [discriminate|].
  vm_compute. repeat split.
Qed.

(** ** Further properties of the address arithmetic *)

Lemma split_snoc (sep : ascii) (s t : string) :
  noChar sep t = true ->
  JS.split sep (s ++ String sep t) = (JS.split sep s ++ [t])%list.
Proof.
  intros Ht. induction s as [|c s IH]; simpl.
  - rewrite Ascii.eqb_refl. now rewrite split_no_sep.
  - destruct (Ascii.eqb c sep); [now rewrite IH|].
    rewrite IH.
    destruct (JS.split sep s) as [|h r] eqn:E; [|reflexivity].
    now apply split_not_nil in E.
Qed.

Lemma fold_NaN (parts : list string) :
  fold_left (fun acc octet =>
               JS.add (JS.mul acc (JS.Fin 256)) (JS.parseInt octet))
            parts JS.NaN = JS.NaN.
Proof. induction parts as [|x parts IH]; [reflexivity|exact IH]. Qed.

Lemma add_NaN_r (x : JS.number) : JS.add x JS.NaN = JS.NaN.
Proof. now destruct x. Qed.

Lemma fold_absorbs_NaN (parts : list string) (part : string) :
  In part parts -> JS.parseInt part = JS.NaN ->
  forall acc,
    fold_left (fun acc octet =>
                 JS.add (JS.mul acc (JS.Fin 256)) (JS.parseInt octet))
              parts acc = JS.NaN.
Proof.
  intros Hin Hnan. induction parts as [|x parts IH]; [destruct Hin|].
  intros acc. cbn [fold_left]. destruct Hin as [->|Hin].
  - rewrite Hnan, add_NaN_r. apply fold_NaN.
  - now apply IH.
Qed.

Lemma append_slash_fields (net pre : string) :
  noChar "/" net = true -> noChar "/" pre = true ->
  upTo "/" (net ++ String "/" pre) = net
  /\ prefixField (net ++ String "/" pre) = Some pre.
Proof.
  intros Hn Hp.
  pose proof (split_app "/" net pre Hn) as S.
  rewrite (split_no_sep "/" pre Hp) in S.
  rewrite <- split_hd, <- split_prefixField, S. split; reflexivity.
Qed.

Lemma length_append (s t : string) :
  String.length (s ++ t) = (String.length s + String.length t)%nat.
Proof. induction s as [|c s IH]; cbn; [reflexivity|now rewrite IH]. Qed.

Lemma append_inj_l (s t u : string) : s ++ u = t ++ u -> s = t.
Proof.
  intros H.
  assert (L : String.length s = String.length t).
  { apply (f_equal String.length) in H.
    rewrite !length_append in H. lia. }
  revert t H L. induction s as [|c s IH]; intros [|d t] H L;
    try discriminate L; [reflexivity|].
  cbn in H. injection H as -> H. f_equal. apply IH; [exact H|].
  cbn in L. lia.
Qed.

Lemma addrString_inj (m n : Z) :
  0 <= m < 2 ^ 32 -> 0 <= n < 2 ^ 32 -> addrString m = addrString n -> m = n.
Proof.
  intros Hm Hn E. apply (f_equal ipToNumber) in E.
  rewrite !ipToNumber_addrString in E by assumption. now injection E.
Qed.

(** X1: [numberToIp] never fails and looks only at the low 32 bits of its
    argument: an integer is reduced modulo 2^32 before its four bytes are
    written, so adding 2^32 changes nothing, and NaN and the infinities come
    out as 0.0.0.0. *)
Theorem numberToIp_wraps (n : Z) (negative : bool) :
  numberToIp (JS.Fin n) = addrString (n mod 2 ^ 32)
  /\ numberToIp (JS.Fin (n + 2 ^ 32)) = numberToIp (JS.Fin n)
  /\ numberToIp JS.NaN = "0.0.0.0"
  /\ numberToIp (JS.Inf negative) = "0.0.0.0".
Proof.
  rewrite !numberToIp_spec. cbn [JS.ToUint32].
  repeat split.
  replace (n + 2 ^ 32) with (n + 1 * 2 ^ 32) by lia.
  now rewrite Z.mod_add by lia.
Qed.

(** X2: the round trip in the other direction.  Whatever number goes in,
    [numberToIp] writes a dotted quad that [ipToNumber] reads back as that
    number reduced to 32 bits; on 0 .. 2^32 - 1 this is the identity. *)
Theorem ipToNumber_numberToIp (num : JS.number) (n : Z) :
  ipToNumber (numberToIp num) = JS.Fin (JS.ToUint32 num)
  /\ (0 <= n < 2 ^ 32 -> ipToNumber (numberToIp (JS.Fin n)) = JS.Fin n).
Proof.
  split.
  - rewrite numberToIp_spec. apply ipToNumber_addrString, ToUint32_range.
  - intros H. rewrite numberToIp_spec, ToUint32_exact by exact H.
    now apply ipToNumber_addrString.
Qed.

Lemma ipToNumber_numberToIp_witness :
  ipToNumber (numberToIp (JS.Fin 4294967295)) = JS.Fin 4294967295.
Proof.
  apply (proj2 (ipToNumber_numberToIp JS.NaN 4294967295)). lia.
Defined.

(** X3: [ipToNumber] reads base 256 over however many parts there are.
    Appending a dot and one more part multiplies the value so far by 256
    and adds what [parseInt] makes of the new part; nothing counts the
    parts or bounds them. *)
Theorem ipToNumber_append_part (ip part : string) :
  noChar "." part = true ->
  ipToNumber (ip ++ "." ++ part)
  = JS.add (JS.mul (ipToNumber ip) (JS.Fin 256)) (JS.parseInt part).
Proof.
  intros H. unfold ipToNumber.
  change (ip ++ "." ++ part) with (ip ++ String "." part).
  rewrite split_snoc by exact H.
  now rewrite fold_left_app.
Qed.

Lemma ipToNumber_append_part_witness :
  ipToNumber ("1.2.3.4" ++ "." ++ "5")
  = JS.add (JS.mul (ipToNumber "1.2.3.4") (JS.Fin 256)) (JS.parseInt "5").
Proof. apply (ipToNumber_append_part "1.2.3.4" "5"). reflexivity. Defined.

(** X4: one part without a leading integer spoils the whole address.  If
    [parseInt] returns NaN on any dot-separated part, [ipToNumber] returns
    NaN, and the allocator, given that address with /16, reports no error
    and returns the block 0.0.0.0/20 six times. *)
Theorem unparsable_part_gives_zero_blocks (net part : string) :
  In part (JS.split "." net) -> JS.parseInt part = JS.NaN ->
  noChar "/" net = true ->
  ipToNumber net = JS.NaN
  /\ calculateFixedSubnetAllocation (net ++ "/16")
     = Ok {| web := ["0.0.0.0/20"; "0.0.0.0/20"];
             app := ["0.0.0.0/20"; "0.0.0.0/20"];
             data := ["0.0.0.0/20"; "0.0.0.0/20"] |}.
Proof.
  intros Hin Hnan Hnet.
  assert (E : ipToNumber net = JS.NaN).
  { unfold ipToNumber. now apply (fold_absorbs_NaN _ part). }
  split; [exact E|].
  change (net ++ "/16") with (net ++ String "/" "16").
  destruct (append_slash_fields net "16" Hnet eq_refl) as [Hup Hpre].
  rewrite (allocation_of_prefix_16 _ Hpre), Hup, E. reflexivity.
Qed.

Lemma unparsable_part_gives_zero_blocks_witness :
  ipToNumber "10.10..0" = JS.NaN
  /\ calculateFixedSubnetAllocation ("10.10..0" ++ "/16")
     = Ok {| web := ["0.0.0.0/20"; "0.0.0.0/20"];
             app := ["0.0.0.0/20"; "0.0.0.0/20"];
             data := ["0.0.0.0/20"; "0.0.0.0/20"] |}.
Proof.
  apply (unparsable_part_gives_zero_blocks "10.10..0" "").
  - cbn. tauto.
  - reflexivity.
  - reflexivity.
Defined.

Lemma allocation_of_quad (a b c d : Z) :
  octet a -> octet b -> octet c -> octet d ->
  calculateFixedSubnetAllocation (dottedQuad a b c d ++ "/16")
  = Ok {| web := map (allocatedBlock (quadValue a b c d)) [0; 1];
          app := map (allocatedBlock (quadValue a b c d)) [2; 3];
          data := map (allocatedBlock (quadValue a b c d)) [4; 5] |}.
Proof.
  intros Ha Hb Hc Hd.
  change (dottedQuad a b c d ++ "/16")
    with (dottedQuad a b c d ++ String "/" "16").
  destruct (append_slash_fields (dottedQuad a b c d) "16"
              (dottedQuad_no_slash a b c d Ha Hb Hc Hd) eq_refl) as [Hup Hpre].
  rewrite (allocation_of_prefix_16 _ Hpre), Hup.
  rewrite ipToNumber_dottedQuad by assumption.
  pose proof (quadValue_range a b c d Ha Hb Hc Hd) as R.
  change (2 ^ 32) with 4294967296 in R.
  unfold subnetBlocks, subnetSize, allocatedBlock. cbn [map].
  rewrite !mul_exact by lia. rewrite !add_exact by lia.
  rewrite !numberToIp_spec. cbn [JS.ToUint32].
  repeat (f_equal; try lia).
Qed.

(** X5: the allocator neither masks the address to its /16 boundary nor
    checks that the blocks stay below 2^32.  For every dotted quad a.b.c.d,
    aligned or not, block k starts at the quad's own value plus 4096 k,
    reduced modulo 2^32: host bits are carried into all six blocks, and near
    the top of the address space the blocks wrap around to 0. *)
Theorem allocation_keeps_host_bits (a b c d : Z) :
  octet a -> octet b -> octet c -> octet d ->
  calculateFixedSubnetAllocation (dottedQuad a b c d ++ "/16")
  = Ok {| web := [allocatedBlock (quadValue a b c d) 0;
                  allocatedBlock (quadValue a b c d) 1];
          app := [allocatedBlock (quadValue a b c d) 2;
                  allocatedBlock (quadValue a b c d) 3];
          data := [allocatedBlock (quadValue a b c d) 4;
                   allocatedBlock (quadValue a b c d) 5] |}.
Proof. intros Ha Hb Hc Hd. now rewrite allocation_of_quad. Qed.

Lemma allocation_keeps_host_bits_witness :
  calculateFixedSubnetAllocation (dottedQuad 255 255 240 7 ++ "/16")
  = Ok {| web := ["255.255.240.7/20"; "0.0.0.7/20"];
          app := ["0.0.16.7/20"; "0.0.32.7/20"];
          data := ["0.0.48.7/20"; "0.0.64.7/20"] |}.
Proof.
  apply (allocation_keeps_host_bits 255 255 240 7); unfold octet; lia.
Defined.

(** X6: on every dotted quad the six block strings are pairwise different,
    also when the address is not aligned and when the blocks wrap around. *)
Theorem allocation_blocks_distinct (a b c d : Z) :
  octet a -> octet b -> octet c -> octet d ->
  exists allocation,
    calculateFixedSubnetAllocation (dottedQuad a b c d ++ "/16") = Ok allocation
    /\ length (allBlocks allocation) = 6%nat
    /\ NoDup (allBlocks allocation).
Proof.
  intros Ha Hb Hc Hd. eexists. split; [now apply allocation_of_quad|].
  split; [reflexivity|].
  unfold allBlocks. cbn [web app data]. rewrite <- !map_app.
  apply NoDup_map_NoDup_ForallPairs.
  - intros j k Hj Hk E. unfold allocatedBlock in E.
    apply append_inj_l in E.
    apply addrString_inj in E; try (apply Z.mod_pos_bound; lia).
    pose proof (quadValue_range a b c d Ha Hb Hc Hd) as R.
    change (2 ^ 32) with 4294967296 in *.
    assert (0 <= j < 6 /\ 0 <= k < 6) as [Rj Rk].
    { cbn in Hj, Hk. lia. }
    Z.div_mod_to_equations. lia.
  - cbn [app]. repeat constructor; cbn; lia.
Qed.

Lemma allocation_blocks_distinct_witness :
  exists allocation,
    calculateFixedSubnetAllocation (dottedQuad 255 255 240 7 ++ "/16")
    = Ok allocation
    /\ length (allBlocks allocation) = 6%nat
    /\ NoDup (allBlocks allocation).
Proof.
  apply (allocation_blocks_distinct 255 255 240 7); unfold octet; lia.
Defined.

(** ** Further properties of the plan *)

Lemma memString_In (x : string) (l : list string) :
  memString x l = true <-> In x l.
Proof.
  unfold memString. rewrite existsb_exists. split.
  - intros (y & Hy & E). apply String.eqb_eq in E. now subst.
  - intros H. exists x. split; [exact H|apply String.eqb_refl].
Qed.

Lemma distinctStrings_NoDup (l : list string) :
  distinctStrings l = true -> NoDup l.
Proof.
  induction l as [|x l IH]; cbn; [constructor|].
  intros H. apply andb_prop in H as [Hx Hl]. constructor; [|now apply IH].
  intros Hin. apply memString_In in Hin. now rewrite Hin in Hx.
Qed.

Lemma constructs_app (g h : Graph) :
  constructs (g ++ h)%list = (constructs g ++ constructs h)%list.
Proof. unfold constructs. apply flat_map_app. Qed.

Lemma orderedFrom_sound (g : Graph) :
  forall seen, orderedFrom seen g = true ->
  forall g1 a g2, g = (g1 ++ a :: g2)%list ->
  forall r, In r (references a) ->
  In r (map constructId (constructs g1) ++ seen)%list.
Proof.
  induction g as [|b g IH]; intros seen H g1 a g2 E r Hr.
  - now destruct g1.
  - cbn [orderedFrom] in H. apply andb_prop in H as [Hb Hg].
    destruct g1 as [|b' g1]; cbn [List.app] in E; injection E as Eb E.
    + subst a. rewrite forallb_forall in Hb. now apply memString_In, Hb.
    + subst b'. specialize (IH _ Hg g1 a g2 E r Hr).
      change (b :: g1) with ([b] ++ g1)%list.
      rewrite constructs_app, map_app, <- app_assoc.
      apply in_app_or in IH. apply in_or_app.
      destruct IH as [IH|IH]; [right; apply in_or_app; now left|].
      apply in_app_or in IH. destruct IH as [IH|IH].
      * now left.
      * right. apply in_or_app. now right.
Qed.

Lemma construct_ids_distinct_recorded (e : StackEnv) (p : Props) :
  prefixField (cidr (config p)) = Some "16" ->
  exists stack g,
    newNetworkingStack recorder e p = (Ok stack, g)
    /\ NoDup (map constructId (constructs g)).
Proof.
  intros Hprefix.
  enter_constructor Hprefix. split_zones; split_accounts.
  all: do 2 eexists; (split; [reflexivity|]).
  all: apply distinctStrings_NoDup; vm_compute; reflexivity.
Qed.

(** X7: in every run that returns, the ids the constructor gave its
    constructs are pairwise different, for any zones and accounts, so that
    no two constructs of the stack collide. *)
Theorem construct_ids_distinct (lib : Library) (e : StackEnv) (p : Props)
    (stack : NetworkingStack) (g : Graph) :
  newNetworkingStack lib e p = (Ok stack, g) ->
  NoDup (map constructId (constructs g)).
Proof.
  intros H. recorded H (construct_ids_distinct_recorded e p). assumption.
Qed.

Lemma construct_ids_distinct_witness :
  exists stack g,
    newNetworkingStack recorder demoEnv demoProps = (Ok stack, g)
    /\ NoDup (map constructId (constructs g)).
Proof.
  destruct (newNetworkingStack recorder demoEnv demoProps) as [[stack|err] g]
    eqn:E.
  - exists stack, g. split; [reflexivity|].
    exact (construct_ids_distinct recorder demoEnv demoProps stack g E).
  - vm_compute in E. discriminate E.
Defined.

Lemma references_created_before_recorded (e : StackEnv) (p : Props) :
  prefixField (cidr (config p)) = Some "16" ->
  exists stack g,
    newNetworkingStack recorder e p = (Ok stack, g)
    /\ forall earlier a later, g = (earlier ++ a :: later)%list ->
       forall r, In r (references a) ->
       In r (map constructId (constructs earlier)).
Proof.
  intros Hprefix.
  enter_constructor Hprefix. split_zones; split_accounts.
  all: do 2 eexists; (split; [reflexivity|]).
  all: intros earlier a later E r Hr.
  all: rewrite <- (app_nil_r (map constructId (constructs earlier))).
  all: refine (orderedFrom_sound _ [] _ earlier a later E r Hr).
  all: vm_compute; reflexivity.
Qed.

(** X8: construction order.  In every run that returns, whenever the
    constructor handed a construct to another one, as an object, a
    reference or a route target, or changed a construct, that construct had
    been created by an earlier statement. *)
Theorem references_created_before (lib : Library) (e : StackEnv) (p : Props)
    (stack : NetworkingStack) (g : Graph) :
  newNetworkingStack lib e p = (Ok stack, g) ->
  forall earlier a later, g = (earlier ++ a :: later)%list ->
  forall r, In r (references a) ->
  In r (map constructId (constructs earlier)).
Proof.
  intros H. recorded H (references_created_before_recorded e p). assumption.
Qed.

Lemma references_created_before_witness :
  exists stack g,
    newNetworkingStack recorder demoEnv demoProps = (Ok stack, g)
    /\ forall earlier a later, g = (earlier ++ a :: later)%list ->
       forall r, In r (references a) ->
       In r (map constructId (constructs earlier)).
Proof.
  destruct (newNetworkingStack recorder demoEnv demoProps) as [[stack|err] g]
    eqn:E.
  - exists stack, g. split; [reflexivity|].
    exact (references_created_before recorder demoEnv demoProps stack g E).
  - vm_compute in E. discriminate E.
Defined.

Lemma endpoints_recorded (e : StackEnv) (p : Props) :
  prefixField (cidr (config p)) = Some "16" ->
  exists stack g,
    newNetworkingStack recorder e p = (Ok stack, g)
    /\ exists s3 dynamo,
         endpoints g = [s3; dynamo]
         /\ endpointService s3 = Some ("com.amazonaws." ++ region e ++ ".s3")
         /\ endpointService dynamo
            = Some ("com.amazonaws." ++ region e ++ ".dynamodb")
         /\ endpointType s3 = Some "Gateway"
         /\ endpointType dynamo = Some "Gateway"
         /\ endpointRouteTables s3 = [RefOf (routeTableOf App)]
         /\ endpointRouteTables dynamo = [RefOf (routeTableOf App)].
Proof.
  intros Hprefix.
  enter_constructor Hprefix. split_zones; split_accounts.
  all: do 2 eexists; (split; [reflexivity|]); do 2 eexists.
  all: repeat (split; [reflexivity|]); reflexivity.
Qed.

(** X9: in every run that returns, the plan has exactly two VPC endpoints,
    for the S3 and the DynamoDB service of the stack's region, both of the
    gateway type, and each is attached to the App route table and to no
    other: the Web and the Data route tables get no endpoint. *)
Theorem endpoints_on_app_only (lib : Library) (e : StackEnv) (p : Props)
    (stack : NetworkingStack) (g : Graph) :
  newNetworkingStack lib e p = (Ok stack, g) ->
  exists s3 dynamo,
    endpoints g = [s3; dynamo]
    /\ endpointService s3 = Some ("com.amazonaws." ++ region e ++ ".s3")
    /\ endpointService dynamo
       = Some ("com.amazonaws." ++ region e ++ ".dynamodb")
    /\ endpointType s3 = Some "Gateway"
    /\ endpointType dynamo = Some "Gateway"
    /\ endpointRouteTables s3 = [RefOf (routeTableOf App)]
    /\ endpointRouteTables dynamo = [RefOf (routeTableOf App)].
Proof.
  intros H. recorded H (endpoints_recorded e p). assumption.
Qed.

Lemma endpoints_on_app_only_witness :
  exists stack g s3 dynamo,
    newNetworkingStack recorder demoEnv demoProps = (Ok stack, g)
    /\ endpoints g = [s3; dynamo]
    /\ endpointService s3 = Some "com.amazonaws.us-east-1.s3"
    /\ endpointService dynamo = Some "com.amazonaws.us-east-1.dynamodb"
    /\ endpointType s3 = Some "Gateway"
    /\ endpointType dynamo = Some "Gateway"
    /\ endpointRouteTables s3 = [RefOf (routeTableOf App)]
    /\ endpointRouteTables dynamo = [RefOf (routeTableOf App)].
Proof.
  destruct (newNetworkingStack recorder demoEnv demoProps) as [[stack|err] g]
    eqn:E.
  - destruct (endpoints_on_app_only recorder demoEnv demoProps stack g E)
      as (s3 & dynamo & H).
    exists stack, g, s3, dynamo. split; [reflexivity|exact H].
  - vm_compute in E. discriminate E.
Defined.

Lemma single_vpc_recorded (e : StackEnv) (p : Props) :
  prefixField (cidr (config p)) = Some "16" ->
  exists stack g,
    newNetworkingStack recorder e p = (Ok stack, g)
    /\ (vpcs g
        = [Vpc (vpc stack) (cidr (config p)) 2 (namePrefix p ++ "-vpc") []]
        /\ In (SetEnableDnsHostnames (vpc stack) true) g
        /\ attachments g = [(RefOf (vpc stack), RefOf "InternetGateway")]
        /\ internetGateways g = ["InternetGateway"]
        /\ Forall (fun v => v = vpc stack) (vpcRefs g)).
Proof.
  intros Hprefix.
  enter_constructor Hprefix. split_zones; split_accounts.
  all: do 2 eexists; (split; [reflexivity|]).
  all: split; [reflexivity|]; split; [vm_compute; tauto|].
  all: split; [reflexivity|]; split; [reflexivity|].
  all: vm_compute; repeat constructor.
Qed.






Lemma exposed_subnets_recorded (e : StackEnv) (p : Props)
    (t : Tier) (index : nat) :
  (index < Nat.min 2 (length (availabilityZones e)))%nat ->
  prefixField (cidr (config p)) = Some "16" ->
  exists stack g,
    newNetworkingStack recorder e p = (Ok stack, g)
    /\ exists id,
         length (stackSubnets stack t)
         = Nat.min 2 (length (availabilityZones e))
         /\ nth_error (stackSubnets stack t) index = Some id
         /\ importedNamed g id
            = [ImportedSubnet id (RefOf (subnetOf t index))
                 (nth_error (availabilityZones e) index)
                 (RefOf (routeTableOf t))].
Proof.
  intros Hindex Hprefix.
  enter_constructor Hprefix. split_zones; cbn [length Nat.min] in Hindex.
  1: lia.
  all: destruct index as [|[|index]]; try lia.
  all: split_accounts; destruct t.
  all: do 2 eexists; (split; [reflexivity|]); eexists.
  all: repeat (split; [reflexivity|]); reflexivity.
Qed.

(** X12: the subnets the stack exposes mirror the ones it created.  In
    every run that returns, for each tier and each index below the number
    of zones used, the stack's list for the tier holds at that index an
    imported subnet that refers to the created subnet of that tier and
    index, in the zone of that index and with the route table of the
    tier. *)
Theorem exposed_subnets_mirror_created (lib : Library) (e : StackEnv)
    (p : Props) (t : Tier) (index : nat)
    (stack : NetworkingStack) (g : Graph) :
  newNetworkingStack lib e p = (Ok stack, g) ->
  (index < Nat.min 2 (length (availabilityZones e)))%nat ->
  exists id,
    length (stackSubnets stack t) = Nat.min 2 (length (availabilityZones e))
    /\ nth_error (stackSubnets stack t) index = Some id
    /\ importedNamed g id
       = [ImportedSubnet id (RefOf (subnetOf t index))
            (nth_error (availabilityZones e) index)
            (RefOf (routeTableOf t))].
Proof.
  intros H Hindex.
  recorded H (exposed_subnets_recorded e p t index Hindex). assumption.
Qed.

Lemma exposed_subnets_mirror_created_witness :
  exists stack g id,
    newNetworkingStack recorder demoEnv demoProps = (Ok stack, g)
    /\ length (stackSubnets stack Data)
       = Nat.min 2 (length (availabilityZones demoEnv))
    /\ nth_error (stackSubnets stack Data) 1 = Some id
    /\ importedNamed g id
       = [ImportedSubnet id (RefOf (subnetOf Data 1))
            (nth_error (availabilityZones demoEnv) 1)
            (RefOf (routeTableOf Data))].
Proof.
  destruct (newNetworkingStack recorder demoEnv demoProps) as [[stack|err] g]
    eqn:E.
  - destruct (exposed_subnets_mirror_created recorder demoEnv demoProps Data 1
                stack g E ltac:(cbn; lia)) as (id & H).
    exists stack, g, id. split; [reflexivity|exact H].
  - vm_compute in E. discriminate E.
Defined.

Lemma zone_names_recorded (e1 e2 : StackEnv) (p : Props) :
  length (availabilityZones e1) = length (availabilityZones e2) ->
  region e1 = region e2 -> account e1 = account e2 ->
  prefixField (cidr (config p)) = Some "16" ->
  exists stack g1 g2,
    newNetworkingStack recorder e1 p = (Ok stack, g1)
    /\ newNetworkingStack recorder e2 p = (Ok stack, g2)
    /\ map eraseZone g1 = map eraseZone g2.
Proof.
  intros Hlen Hregion Haccount Hprefix.
  destruct e1 as [zones1 r1 a1], e2 as [zones2 r2 a2].
  cbn in Hlen, Hregion, Haccount. subst r2 a2.
  enter_constructor Hprefix. cbn [availabilityZones].
  destruct zones1 as [|? [|? ?]], zones2 as [|? [|? ?]];
    try discriminate Hlen; split_accounts.
  all: do 3 eexists; (split; [reflexivity|]); split; reflexivity.
Qed.

(** X13: zones are handled by position.  Two runs that return and differ
    only in what the zones are called (same number of zones, same region,
    account and properties) return the same stack object and give the same
    plan (same ids, names, tags, blocks, routes, references) up to the zone
    written in each subnet. *)
Theorem plan_independent_of_zone_names (lib1 lib2 : Library)
    (e1 e2 : StackEnv) (p : Props)
    (stack1 stack2 : NetworkingStack) (g1 g2 : Graph) :
  newNetworkingStack lib1 e1 p = (Ok stack1, g1) ->
  newNetworkingStack lib2 e2 p = (Ok stack2, g2) ->
  length (availabilityZones e1) = length (availabilityZones e2) ->
  region e1 = region e2 -> account e1 = account e2 ->
  stack1 = stack2 /\ map eraseZone g1 = map eraseZone g2.
Proof.
  intros H1 H2 Hlen Hregion Haccount.
  apply returned_as_recorded in H1. destruct H1 as [Hp H1].
  apply returned_as_recorded in H2. destruct H2 as [_ H2].
  destruct (zone_names_recorded e1 e2 p Hlen Hregion Haccount Hp)
    as (s & h1 & h2 & E1 & E2 & HE).
  rewrite H1 in E1. rewrite H2 in E2.
  injection E1 as <- <-. injection E2 as <- <-. now split.
Qed.

Lemma plan_independent_of_zone_names_witness :
  exists stack1 stack2 g1 g2,
    newNetworkingStack recorder demoEnv demoProps = (Ok stack1, g1)
    /\ newNetworkingStack recorder
         (mkStackEnv ["eu-west-1b"; "eu-west-1c"; "eu-west-1a"] "us-east-1"
                     "111111111111")
         demoProps = (Ok stack2, g2)
    /\ stack1 = stack2
    /\ map eraseZone g1 = map eraseZone g2.
Proof.
  destruct (newNetworkingStack recorder demoEnv demoProps)
    as [[stack1|err1] g1] eqn:E1; [|vm_compute in E1; discriminate E1].
  destruct (newNetworkingStack recorder
              (mkStackEnv ["eu-west-1b"; "eu-west-1c"; "eu-west-1a"]
                          "us-east-1" "111111111111")
              demoProps)
    as [[stack2|err2] g2] eqn:E2; [|vm_compute in E2; discriminate E2].
  exists stack1, stack2, g1, g2. split; [reflexivity|]. split; [reflexivity|].
  exact (plan_independent_of_zone_names recorder recorder demoEnv
           (mkStackEnv ["eu-west-1b"; "eu-west-1c"; "eu-west-1a"]
                       "us-east-1" "111111111111")
           demoProps stack1 stack2 g1 g2 E1 E2 eq_refl eq_refl eq_refl).
Defined.

Lemma prefix_app (a b c : string) :
  String.prefix (a ++ b) (a ++ c) = String.prefix b c.
Proof.
  induction a as [|x a IH]; cbn; [reflexivity|].
  destruct (ascii_dec x x); [exact IH|congruence].
Qed.

Lemma named_after (np suffix : string) :
  String.prefix "-" suffix = true ->
  String.prefix (np ++ "-") (np ++ suffix) = true.
Proof. intros H. now rewrite prefix_app. Qed.

Lemma names_recorded (e : StackEnv) (p : Props) :
  prefixField (cidr (config p)) = Some "16" ->
  exists stack g,
    newNetworkingStack recorder e p = (Ok stack, g)
    /\ ((11 <= length (names g))%nat
        /\ Forall (fun name =>
                     String.prefix (namePrefix p ++ "-") name = true)
                  (names g)).
Proof.
  intros Hprefix.
  enter_constructor Hprefix. split_zones; split_accounts.
  all: do 2 eexists; (split; [reflexivity|]).
  all: split; [cbn; lia|].
  all: cbn.
  all: repeat (apply Forall_cons; [apply named_after; reflexivity|]).
  all: apply Forall_nil.
Qed.

(** X14: in every run that returns, every name the plan gives, be it a
    Name tag (gateway, route tables, subnets, security group, endpoints,
    share) or the name of the VPC, the security group, the role, the
    instance or the share, starts with the name prefix of the properties
    followed by a dash; there are at least eleven such names. *)
Theorem names_start_with_prefix (lib : Library) (e : StackEnv) (p : Props)
    (stack : NetworkingStack) (g : Graph) :
  newNetworkingStack lib e p = (Ok stack, g) ->
  (11 <= length (names g))%nat
  /\ Forall (fun name => String.prefix (namePrefix p ++ "-") name = true)
            (names g).
Proof.
  intros H. recorded H (names_recorded e p). assumption.
Qed.

Lemma names_start_with_prefix_witness :
  exists stack g,
    newNetworkingStack recorder demoEnv demoProps = (Ok stack, g)
    /\ (11 <= length (names g))%nat
    /\ Forall (fun name =>
                 String.prefix (namePrefix demoProps ++ "-") name = true)
              (names g).
Proof.
  destruct (newNetworkingStack recorder demoEnv demoProps) as [[stack|err] g]
    eqn:E.
  - exists stack, g. split; [reflexivity|].
    exact (names_start_with_prefix recorder demoEnv demoProps stack g E).
  - vm_compute in E. discriminate E.
Defined.

(** ** The entry point *)

(** How the script can end with a stack: [super] raised nothing, the
    constructor returned the stack and the tree, and the app is tagged
    when the configured tag is truthy (the library raising nothing on the
    tagging), and left alone otherwise. *)
Lemma main_returned (lib : Library) (zones : list string) (accountId : string)
    (cfg : ConfigProps) (stack : NetworkingStack) :
  stackOutcome (main lib zones accountId cfg) = Ok stack ->
  newNetworkingStack lib (mkStackEnv zones (cfgRegion cfg) accountId)
    (mkProps cfg (env cfg ++ "-" ++ project cfg))
  = (Ok stack, stackTree (main lib zones accountId cfg))
  /\ appTags (main lib zones accountId cfg)
     = if truthy (awsApplicationTag cfg)
       then [mkTag "awsApplication" (JS.interpolate (awsApplicationTag cfg))]
       else [].
Proof.
  unfold main, newNetworkingStack. cbv zeta.
  destruct (newStack lib _ _); [discriminate|].
  destruct (constructor lib _ _ []) as [[s|err] g]; [|discriminate].
  destruct (truthy (awsApplicationTag cfg)).
  - destruct (tagApp lib _ _); [discriminate|].
    cbn. intros [= ->]. now split.
  - cbn. intros [= ->]. now split.
Qed.

(** X15: when [super] accepts the stack and the configured CIDR fails the
    prefix check, the script ends with the constructor's error: the stack
    has no construct, and the app is not tagged, also when an application
    tag is configured. *)
Theorem main_aborts_before_tagging (lib : Library) (zones : list string)
    (accountId : string) (cfg : ConfigProps) :
  newStack lib ((env cfg ++ "-" ++ project cfg) ++ "-stack") (cfgRegion cfg)
  = None ->
  prefixField (cidr cfg) <> Some "16" ->
  main lib zones accountId cfg
  = mkAppRun ((env cfg ++ "-" ++ project cfg) ++ "-stack")
      (Throw (MkError ("VPC CIDR must be /16, got /"
                       ++ JS.interpolate (prefixField (cidr cfg))
                       ++ ". This CDK is designed for /16 VPCs with /20 subnets.")))
      [] [].
Proof.
  intros Hsuper H. unfold main. cbv zeta. rewrite Hsuper.
  rewrite constructor_bad_prefix by exact H.
  reflexivity.
Qed.

Lemma main_aborts_before_tagging_witness :
  main recorder ["us-east-1a"; "us-east-1b"] "111111111111"
       (mkConfigProps "network" "10.10.0.0/24" "us-east-1" "prod"
          (Some "arn:aws:resource-groups:us-east-1:123456789012:group/prod-network/x")
          None)
  = mkAppRun "prod-network-stack"
      (Throw (MkError "VPC CIDR must be /16, got /24. This CDK is designed for /16 VPCs with /20 subnets."))
      [] [].
Proof.
  apply (main_aborts_before_tagging recorder ["us-east-1a"; "us-east-1b"]
           "111111111111"
           (mkConfigProps "network" "10.10.0.0/24" "us-east-1" "prod"
              (Some "arn:aws:resource-groups:us-east-1:123456789012:group/prod-network/x")
              None)).
  - reflexivity.
  - vm_compute. discriminate.
Defined.

(** X16: whenever the script ends with a stack, the stack was built with
    the name prefix env-project and in the configured region (the two
    endpoints are those of that region), and the app is tagged with
    awsApplication exactly when the configured tag is a non-empty string:
    an absent tag and an empty one both leave the app untagged. *)
Theorem main_builds_and_tags (lib : Library) (zones : list string)
    (accountId : string) (cfg : ConfigProps) (stack : NetworkingStack) :
  stackOutcome (main lib zones accountId cfg) = Ok stack ->
  vpcs (stackTree (main lib zones accountId cfg))
  = [Vpc (vpc stack) (cidr cfg) 2
         ((env cfg ++ "-" ++ project cfg) ++ "-vpc") []]
  /\ map endpointService (endpoints (stackTree (main lib zones accountId cfg)))
     = [Some ("com.amazonaws." ++ cfgRegion cfg ++ ".s3");
        Some ("com.amazonaws." ++ cfgRegion cfg ++ ".dynamodb")]
  /\ (forall tag, awsApplicationTag cfg = Some tag -> tag <> "" ->
        appTags (main lib zones accountId cfg) = [mkTag "awsApplication" tag])
  /\ (awsApplicationTag cfg = None \/ awsApplicationTag cfg = Some "" ->
        appTags (main lib zones accountId cfg) = []).
Proof.
  intros H. destruct (main_returned _ _ _ _ _ H) as [Hrun Htags].
  apply returned_as_recorded in Hrun. destruct Hrun as [Hp Hrun].
  split; [|split; [|split]].
  - destruct (single_vpc_recorded
                (mkStackEnv zones (cfgRegion cfg) accountId) _ Hp)
      as (s & g & E & Hv & _).
    rewrite Hrun in E. injection E as <- <-. exact Hv.
  - destruct (endpoints_recorded
                (mkStackEnv zones (cfgRegion cfg) accountId) _ Hp)
      as (s & g & E & s3 & dynamo & He & H3 & Hd & _).
    rewrite Hrun in E. injection E as <- <-.
    rewrite He. cbn [map]. now rewrite H3, Hd.
  - intros tag Ht Hne. rewrite Htags, Ht.
    destruct tag; [congruence|reflexivity].
  - intros [Ht|Ht]; rewrite Htags, Ht; reflexivity.
Qed.

Lemma main_builds_and_tags_witness :
  exists stack,
    stackOutcome (main recorder ["us-east-1a"; "us-east-1b"] "111111111111"
                       (config demoProps)) = Ok stack
    /\ vpcs (stackTree (main recorder ["us-east-1a"; "us-east-1b"]
                             "111111111111" (config demoProps)))
       = [Vpc (vpc stack) "10.10.0.0/16" 2 "prod-network-vpc" []]
    /\ map endpointService
         (endpoints (stackTree (main recorder ["us-east-1a"; "us-east-1b"]
                                     "111111111111" (config demoProps))))
       = [Some "com.amazonaws.us-east-1.s3";
          Some "com.amazonaws.us-east-1.dynamodb"]
    /\ appTags (main recorder ["us-east-1a"; "us-east-1b"] "111111111111"
                     (config demoProps)) = [].
Proof.
  destruct (stackOutcome (main recorder ["us-east-1a"; "us-east-1b"]
                               "111111111111" (config demoProps)))
    as [stack|err] eqn:E; [|vm_compute in E; discriminate E].
  destruct (main_builds_and_tags recorder ["us-east-1a"; "us-east-1b"]
              "111111111111" (config demoProps) stack E)
    as (Hv & He & _ & Ht).
  exists stack. split; [reflexivity|]. split; [exact Hv|].
  split; [exact He|]. apply Ht. now left.
Defined.
